(** * merge-me-action: the merge decision and retry engine

    A shallow embedding of [src/common/merge.ts]: the modification detector
    [getIsModified], the mutation selection [merge], the retry policy
    [shouldRetry] / [mergeWithRetry], and the entry point [tryMerge].

    Asynchronous functions are modelled as computations over a chronological
    trace of the effects they perform (configuration reads, executor calls,
    delays, log lines); a rejected promise is a [Thrown] outcome. *)

From Stdlib Require Import ZArith List String Ascii Bool Lia Arith DecimalString Sorted.
From Equations Require Import Equations.
Import ListNotations.

Local Open Scope string_scope.
Local Open Scope Z_scope.
Local Open Scope list_scope.

(** Matching on a value while keeping the equation that names it. *)
Definition inspect {A : Type} (x : A) : { y : A | x = y } := exist _ x eq_refl.

(** ** JavaScript values used by the module *)

(** An [Error] object: [name] and [message]. *)
Record Error : Type := mkError { name : string; message : string }.

(** [Error.prototype.toString]. *)
Definition errorToString (e : Error) : string :=
  if String.eqb (name e) "" then message e
  else if String.eqb (message e) "" then name e
  else (name e ++ ": " ++ message e)%string.

(** [String.prototype.includes]: [includes s searchString]. *)
Fixpoint includes (s searchString : string) : bool :=
  if String.prefix searchString s then true
  else match s with
       | EmptyString => false
       | String _ rest => includes rest searchString
       end.

(** [Number.prototype.toString] on an integer value.  Numbers are modelled as
    mathematical integers (exact for a double below 2^53). *)
Definition toString (n : Z) : string := NilZero.string_of_int (Z.to_int n).

(** The [TypeError] raised by reading property [prop] of [null]. *)
Definition nullPropertyError (prop : string) : Error :=
  mkError "TypeError"
    ("Cannot read properties of null (reading '" ++ prop ++ "')")%string.

(** ** Data model *)

(** [commit.author.user.login], with the objects that the platform may leave
    out ([null]) along the path. *)
Record User : Type := mkUser { login : string }.
Record Author : Type := mkAuthor { user : option User }.
Record Signature : Type := mkSignature { isValid : bool }.
Record Commit : Type := mkCommit { author : option Author; signature : option Signature }.
Record PullRequestCommitNode : Type := mkNode { commit : Commit }.

Record ReviewEdge : Type := mkReviewEdge { state : string }.

(** [PullRequestDetails] together with the two retry counters that
    [mergeWithRetry] receives in the same object; the counters are integers. *)
Record PullRequestDetails : Type := mkDetails {
  commitHeadline : string;
  pullRequestId : string;
  reviewEdge : option ReviewEdge;
  maximumRetries : Z;
  retryCount : Z
}.

(** [PullRequestInformationContinuousIntegrationEnd]; [mergeStateStatus] is
    the one field that can be [undefined]. *)
Record PullRequestInformation : Type := mkInformation {
  commitMessageHeadline : string;
  mergeableState : string;
  mergeStateStatus : option string;
  merged : bool;
  infoPullRequestId : string;
  pullRequestNumber : Z;
  pullRequestState : string;
  pullRequestTitle : string;
  reviewEdges : list ReviewEdge;
  repositoryName : string;
  repositoryOwner : string
}.

(** The parameters of the commit query. *)
Record CommitsQuery : Type := mkQuery {
  queryPullRequestNumber : Z;
  queryRepositoryName : string;
  queryRepositoryOwner : string
}.

Inductive MergeMethod : Type := MERGE | SQUASH | REBASE.

(** The two mutation documents of [../graphql/mutations]. *)
Inductive Mutation : Type :=
| approveAndMergePullRequestMutation (mergeMethod : MergeMethod)
| mergePullRequestMutation (mergeMethod : MergeMethod).

(** The variables sent with a mutation: [{ commitHeadline, pullRequestId }]. *)
Record MutationVariables : Type := mkVariables {
  varCommitHeadline : string;
  varPullRequestId : string
}.

(** ** Effects *)

Inductive LogLevel : Type := Debug | Info | Warning.

Inductive Event : Type :=
| GetInput (inputName : string)
| ParseInputMergeMethod
| Query (parameters : CommitsQuery) (endCursor : option string)
| Mutate (mutation : Mutation) (variables : MutationVariables)
| Delay (milliseconds : Z)
| Log (level : LogLevel) (text : string).

Definition Trace : Type := list Event.

Inductive Outcome (A : Type) : Type :=
| Returned (value : A)
| Thrown (error : Error).
Arguments Returned {A} value.
Arguments Thrown {A} error.

(** A promise-returning computation: from the effects so far to an outcome
    and the effects extended. *)
Definition Async (A : Type) : Type := Trace -> Outcome A * Trace.

Definition ret {A} (a : A) : Async A := fun t => (Returned a, t).
Definition throw {A} (e : Error) : Async A := fun t => (Thrown e, t).
Definition emit (ev : Event) : Async unit := fun t => (Returned tt, t ++ [ev]).

Definition bind {A B} (m : Async A) (k : A -> Async B) : Async B :=
  fun t => match m t with
           | (Returned a, t') => k a t'
           | (Thrown e, t') => (Thrown e, t')
           end.

Declare Scope async_scope.
Delimit Scope async_scope with async.
Notation "x <- m ;; k" := (bind m (fun x => k))
  (at level 100, m at next level, right associativity) : async_scope.
Notation "m ;;; k" := (bind m (fun _ => k))
  (at level 100, right associativity) : async_scope.
Local Open Scope async_scope.

Definition logDebug (text : string) : Async unit := emit (Log Debug text).
Definition logInfo (text : string) : Async unit := emit (Log Info text).
Definition logWarning (text : string) : Async unit := emit (Log Warning text).
Definition delay (milliseconds : Z) : Async unit := emit (Delay milliseconds).

(** ** Collaborators *)

(** Modelled from the spec: how the platform answers the commit query of
    [../graphql/queries] along the cursor chain (section 4.1, the page object
    with [nodes] and [pageInfo]).  A page with [hasNextPage = true] carries the
    answer to the query issued at its [endCursor]; [FailedPage] is a rejected
    request or a response in which the projection finds no page. *)
Inductive CommitHistory : Type :=
| LastPage (nodes : list PullRequestCommitNode) (endCursor : option string)
| NextPage (nodes : list PullRequestCommitNode) (endCursor : option string)
           (rest : CommitHistory)
| FailedPage (error : Error).

(** The executor [octokit.graphql].  A mutation resolves ([None]) or rejects
    with an error; the answer may depend on everything that happened before. *)
Record Octokit : Type := mkOctokit {
  commits : CommitsQuery -> CommitHistory;
  mutationError : Trace -> Mutation -> MutationVariables -> option Error
}.

Definition graphqlMutation (octokit : Octokit) (mutation : Mutation)
    (variables : MutationVariables) : Async unit :=
  fun t => match mutationError octokit t mutation variables with
           | None => (Returned tt, t ++ [Mutate mutation variables])
           | Some e => (Thrown e, t ++ [Mutate mutation variables])
           end.

(** The action inputs read with [getInput]. *)
Record Inputs : Type := mkInputs {
  GITHUB_LOGIN : string;
  ENABLED_FOR_MANUAL_CHANGES : string
}.

Definition inputValue (inputs : Inputs) (inputName : string) : string :=
  if String.eqb inputName "GITHUB_LOGIN" then GITHUB_LOGIN inputs
  else if String.eqb inputName "ENABLED_FOR_MANUAL_CHANGES"
       then ENABLED_FOR_MANUAL_CHANGES inputs
       else "".

Definition getInput (inputs : Inputs) (inputName : string) : Async string :=
  emit (GetInput inputName) ;;; ret (inputValue inputs inputName).

(** ** The paginated fetcher *)

Inductive IteratorResult : Type :=
| IterValue (value : PullRequestCommitNode)
| IterDone.

(** Modelled from the spec: the state of the generator returned by
    [makeGraphqlIterator] (section 4.1): the in-memory page buffer and, while
    [hasNextPage] holds, the cursor of the next query with the answer the
    executor will give to it. *)
Record Iterator : Type := mkIterator {
  iterQuery : CommitsQuery;
  buffer : list PullRequestCommitNode;
  upcoming : option (option string * CommitHistory)
}.

(** Modelled from the spec: [makeGraphqlIterator] (section 4.1); nothing is
    requested before the first node is asked for. *)
Definition makeGraphqlIterator (octokit : Octokit) (query : CommitsQuery) : Iterator :=
  mkIterator query [] (Some (None, commits octokit query)).

(** Modelled from the spec: refilling an exhausted buffer (section 4.1), one
    query per page, until a page yields a node, the last page is reached or a
    request fails. *)
Fixpoint refill (query : CommitsQuery) (cursor : option string)
    (history : CommitHistory) (t : Trace) : Outcome (IteratorResult * Iterator) * Trace :=
  let t' := t ++ [Query query cursor] in
  match history with
  | FailedPage e => (Thrown e, t')
  | LastPage [] _ => (Returned (IterDone, mkIterator query [] None), t')
  | LastPage (node :: more) _ =>
      (Returned (IterValue node, mkIterator query more None), t')
  | NextPage [] endCursor rest => refill query endCursor rest t'
  | NextPage (node :: more) endCursor rest =>
      (Returned (IterValue node, mkIterator query more (Some (endCursor, rest))), t')
  end.

(** Modelled from the spec: [iterator.next()] (section 4.1): single pass,
    forward only; a page is requested only when the buffer is exhausted. *)
Definition next (iterator : Iterator) : Async (IteratorResult * Iterator) :=
  fun t =>
    match buffer iterator with
    | node :: more =>
        (Returned (IterValue node,
                   mkIterator (iterQuery iterator) more (upcoming iterator)), t)
    | [] =>
        match upcoming iterator with
        | None => (Returned (IterDone, iterator), t)
        | Some (cursor, history) => refill (iterQuery iterator) cursor history t
        end
    end.

(** What remains to be traversed: buffered nodes, and pages with their nodes. *)
Fixpoint historySize (history : CommitHistory) : nat :=
  match history with
  | LastPage nodes _ => S (List.length nodes)
  | NextPage nodes _ rest => S (List.length nodes + historySize rest)
  | FailedPage _ => 1%nat
  end.

Definition iteratorSize (iterator : Iterator) : nat :=
  (List.length (buffer iterator) +
   match upcoming iterator with
   | None => 0
   | Some (_, history) => historySize history
   end)%nat.

Lemma refill_decreases query cursor history t value iterator' t' :
  refill query cursor history t = (Returned (IterValue value, iterator'), t') ->
  (iteratorSize iterator' < historySize history)%nat.
Proof.
  revert cursor t.
  induction history as [nodes c | nodes c rest IH | e]; intros cursor t; simpl.
  - destruct nodes; intros H; inversion H; subst; clear H.
    unfold iteratorSize; simpl. lia.
  - destruct nodes.
    + intros H. apply IH in H. lia.
    + intros H; inversion H; subst; clear H. unfold iteratorSize; simpl. lia.
  - discriminate.
Qed.

Lemma next_decreases iterator t value iterator' t' :
  next iterator t = (Returned (IterValue value, iterator'), t') ->
  (iteratorSize iterator' < iteratorSize iterator)%nat.
Proof.
  unfold next. destruct iterator as [q buf up]; simpl.
  destruct buf as [| node more].
  - destruct up as [[cursor history] |].
    + intros H. apply refill_decreases in H. unfold iteratorSize at 2; simpl. exact H.
    + discriminate.
  - intros H; inversion H; subst; clear H. unfold iteratorSize; simpl. lia.
Qed.

(** ** The module [merge.ts] *)

Section Merge.

(** The constants of [./delay], whose values the module only imports. *)
Variable EXPONENTIAL_BACKOFF : Z.
Variable MINIMUM_WAIT_TIME : Z.

(** The merge method that the configuration holds, and the title policy of
    [../utilities/prTitleParsers]. *)
Variable configuredMergeMethod : MergeMethod.
Variable checkPullRequestTitleForMergePreset : string -> bool.

(** Modelled from the spec: [parseInputMergeMethod] of
    [../utilities/inputParsers] (section 6, Configuration Provider): a read of
    the configuration that yields the chosen merge method. *)
Definition parseInputMergeMethod : Async MergeMethod :=
  emit ParseInputMergeMethod ;;; ret configuredMergeMethod.

(** *** getIsModified *)

(** [commitNode.commit.author.user.login]; reading through a [null] object
    raises. *)
Definition authorUserLogin (node : PullRequestCommitNode) : Async string :=
  match author (commit node) with
  | None => throw (nullPropertyError "user")
  | Some a =>
      match user a with
      | None => throw (nullPropertyError "login")
      | Some u => ret (login u)
      end
  end.

(** The body of the [for await] loop: [Some b] is [return b], [None] falls
    through to the next commit. *)
Definition loopBody (first commitNode : PullRequestCommitNode) : Async (option bool) :=
  match signature (commit commitNode) with
  | None =>
      logWarning "Commit signature not present or invalid, regarding PR as modified." ;;;
      ret (Some true)
  | Some s =>
      if negb (Bool.eqb (isValid s) true) then
        logWarning "Commit signature not present or invalid, regarding PR as modified." ;;;
        ret (Some true)
      else
        commitLogin <- authorUserLogin commitNode ;;
        firstLogin <- authorUserLogin first ;;
        if negb (String.eqb commitLogin firstLogin) then ret (Some true)
        else ret None
  end.

(** [for await (const commitNode of iterator) { ... } return false;] *)
Equations? forAwait (first : PullRequestCommitNode) (iterator : Iterator) (t : Trace)
  : Outcome bool * Trace by wf (iteratorSize iterator) lt :=
  forAwait first iterator t with inspect (next iterator t) => {
    | exist _ (Thrown e, t1) _ => (Thrown e, t1);
    | exist _ (Returned (IterDone, _), t1) _ => (Returned false, t1);
    | exist _ (Returned (IterValue commitNode, iterator'), t1) Hnext
        with loopBody first commitNode t1 => {
        | (Thrown e, t2) => (Thrown e, t2);
        | (Returned (Some b), t2) => (Returned b, t2);
        | (Returned None, t2) => forAwait first iterator' t2 } }.
Proof. eapply next_decreases; eassumption. Qed.

Definition getIsModified (octokit : Octokit) (query : CommitsQuery) : Async bool :=
  let iterator := makeGraphqlIterator octokit query in
  firstResult <- next iterator ;;
  match firstResult with
  | (IterDone, _) =>
      logWarning "Could not find PR commits, aborting." ;;; ret true
  | (IterValue firstValue, iterator) => forAwait firstValue iterator
  end.

(** *** merge *)

Definition merge (octokit : Octokit) (pullRequestDetails : PullRequestDetails)
  : Async unit :=
  mergeMethod <- parseInputMergeMethod ;;
  let mutation :=
    match reviewEdge pullRequestDetails with
    | None => approveAndMergePullRequestMutation mergeMethod
    | Some _ => mergePullRequestMutation mergeMethod
    end in
  graphqlMutation octokit mutation
    (mkVariables (commitHeadline pullRequestDetails) (pullRequestId pullRequestDetails)).

(** *** shouldRetry *)

Definition shouldRetry (error : Error) (retryCount maximumRetries : Z) : Async bool :=
  let isRetryableError := includes (message error) "Base branch was modified." in
  if isRetryableError && (retryCount >? maximumRetries) then
    logInfo ("Unable to merge after " ++ toString retryCount
             ++ " attempts. Retries exhausted.")%string ;;;
    ret false
  else ret isRetryableError.

Lemma shouldRetry_true error retryCount maximumRetries t t' :
  shouldRetry error retryCount maximumRetries t = (Returned true, t') ->
  includes (message error) "Base branch was modified." = true /\
  retryCount <= maximumRetries /\ t' = t.
Proof.
  unfold shouldRetry.
  destruct (includes (message error) "Base branch was modified."); simpl.
  - destruct (retryCount >? maximumRetries) eqn:Hgt; simpl.
    + unfold bind, logInfo, emit, ret. discriminate.
    + unfold ret. intros H; inversion H; subst. repeat split. lia.
  - unfold ret. discriminate.
Qed.

(** *** mergeWithRetry *)

Definition nextAttempt (details : PullRequestDetails) : PullRequestDetails :=
  mkDetails (commitHeadline details) (pullRequestId details) (reviewEdge details)
            (maximumRetries details) (retryCount details + 1).

Equations? mergeWithRetry (octokit : Octokit) (details : PullRequestDetails) (t : Trace)
  : Outcome unit * Trace
  by wf (Z.to_nat (maximumRetries details + 1 - retryCount details)) lt :=
  mergeWithRetry octokit details t with merge octokit details t => {
    | (Returned _, t1) => (Returned tt, t1);
    | (Thrown error, t1)
        with inspect (shouldRetry error (retryCount details) (maximumRetries details) t1) => {
        | exist _ (Thrown e, t2) _ => (Thrown e, t2);
        | exist _ (Returned true, t2) Hretry
            with (let nextRetryIn :=
                    retryCount details ^ EXPONENTIAL_BACKOFF * MINIMUM_WAIT_TIME in
                  logInfo ("Retrying in " ++ toString nextRetryIn ++ "...")%string ;;;
                  delay nextRetryIn) t2 => {
            | (Thrown e, t3) => (Thrown e, t3);
            | (Returned _, t3) => mergeWithRetry octokit (nextAttempt details) t3 };
        | exist _ (Returned false, t2) _ =>
            (logInfo ("An error ocurred while merging the Pull Request. This is usually "
                      ++ "caused by the base branch being out of sync with the target "
                      ++ "branch. In this case, the base branch must be rebased. Some "
                      ++ "tools, such as Dependabot, do that automatically.")%string ;;;
             logDebug ("Original error: " ++ errorToString error ++ ".")%string) t2 } }.
Proof.
  apply shouldRetry_true in Hretry. destruct Hretry as (_ & Hle & _).
  simpl. lia.
Qed.

(** *** tryMerge *)

(** A possibly [undefined] string inside a template literal. *)
Definition templateValue (s : option string) : string :=
  match s with
  | Some v => v
  | None => "undefined"
  end.

Definition tryMerge (inputs : Inputs) (octokit : Octokit) (maximumRetries : Z)
    (information : PullRequestInformation) : Async unit :=
  allowedAuthorName <- getInput inputs "GITHUB_LOGIN" ;;
  manualChanges <- getInput inputs "ENABLED_FOR_MANUAL_CHANGES" ;;
  let enabledForManualChanges := String.eqb manualChanges "true" in
  if negb (String.eqb (mergeableState information) "MERGEABLE") then
    logInfo ("Pull request is not in a mergeable state: "
             ++ mergeableState information ++ ".")%string
  else if merged information then
    logInfo "Pull request is already merged."
  else if match mergeStateStatus information with
          | None => false
          | Some status => negb (String.eqb status "CLEAN")
          end then
    logInfo ("Pull request cannot be merged cleanly. " ++ "Current state: "
             ++ templateValue (mergeStateStatus information) ++ ".")%string
  else if negb (String.eqb (pullRequestState information) "OPEN") then
    logInfo ("Pull request is not open: " ++ pullRequestState information ++ ".")%string
  else if Bool.eqb (checkPullRequestTitleForMergePreset (pullRequestTitle information))
                   false then
    logInfo "Pull request version bump is not allowed by PRESET."
  else
    notByAuthor <-
      (if Bool.eqb enabledForManualChanges false then
         isModified <- getIsModified octokit
                         (mkQuery (pullRequestNumber information)
                                  (repositoryName information)
                                  (repositoryOwner information)) ;;
         ret (Bool.eqb isModified true)
       else ret false) ;;
    if (notByAuthor : bool) then
      logInfo ("Pull request changes were not made by " ++ allowedAuthorName ++ ".")%string
    else
      mergeWithRetry octokit
        (mkDetails (commitMessageHeadline information) (infoPullRequestId information)
                   (nth_error (reviewEdges information) 0) maximumRetries 1).

(** ** Observations on traces *)

(** The mutation calls of a trace, in order. *)
Definition mutationsOf (t : Trace) : list (Mutation * MutationVariables) :=
  flat_map (fun ev => match ev with
                      | Mutate m v => [(m, v)]
                      | _ => []
                      end) t.

(** The suspensions of a trace, in order. *)
Definition delaysOf (t : Trace) : list Z :=
  flat_map (fun ev => match ev with
                      | Delay ms => [ms]
                      | _ => []
                      end) t.

(** A trace without its log lines: what the executor and the configuration
    were asked, and the suspensions. *)
Definition withoutLogs (t : Trace) : Trace :=
  filter (fun ev => match ev with
                    | Log _ _ => false
                    | _ => true
                    end) t.

(** The resolutions of the merge method and the mutation calls of a trace. *)
Definition attemptsOf (t : Trace) : Trace :=
  filter (fun ev => match ev with
                    | ParseInputMergeMethod | Mutate _ _ => true
                    | _ => false
                    end) t.

(** The commits of a history, up to its end or its first failed request. *)
Fixpoint historyCommits (history : CommitHistory) : list PullRequestCommitNode :=
  match history with
  | LastPage nodes _ => nodes
  | NextPage nodes _ rest => nodes ++ historyCommits rest
  | FailedPage _ => []
  end.

(** The queries of a traversal that starts at [cursor] and stops at the page
    holding commit number [k] (from 0) of the history. *)
Fixpoint queriesToReach (query : CommitsQuery) (cursor : option string) (k : nat)
    (history : CommitHistory) : Trace :=
  Query query cursor ::
  match history with
  | NextPage nodes endCursor rest =>
      if (k <? List.length nodes)%nat then []
      else queriesToReach query endCursor (k - List.length nodes) rest
  | _ => []
  end.

(** The queries of a traversal of the whole history. *)
Fixpoint allQueries (query : CommitsQuery) (cursor : option string)
    (history : CommitHistory) : Trace :=
  Query query cursor ::
  match history with
  | NextPage _ endCursor rest => allQueries query endCursor rest
  | _ => []
  end.

(** The commits an iterator has yet to yield, and the queries it issues on
    the way to the one numbered [k]. *)
Definition iteratorCommits (iterator : Iterator) : list PullRequestCommitNode :=
  buffer iterator ++
  match upcoming iterator with
  | None => []
  | Some (_, history) => historyCommits history
  end.

Definition iteratorQueries (k : nat) (iterator : Iterator) : Trace :=
  if (k <? List.length (buffer iterator))%nat then []
  else match upcoming iterator with
       | None => []
       | Some (cursor, history) =>
           queriesToReach (iterQuery iterator) cursor
                          (k - List.length (buffer iterator)) history
       end.

(** The mutation and variables that [merge] sends for given details. *)
Definition chosenMutation (details : PullRequestDetails) : Mutation :=
  match reviewEdge details with
  | None => approveAndMergePullRequestMutation configuredMergeMethod
  | Some _ => mergePullRequestMutation configuredMergeMethod
  end.

Definition chosenVariables (details : PullRequestDetails) : MutationVariables :=
  mkVariables (commitHeadline details) (pullRequestId details).

(** A commit that the loop body lets through against [first]: validly signed,
    with the login of [first]. *)
Definition sameSignedAuthor (first node : PullRequestCommitNode) : bool :=
  match signature (commit node), author (commit node), author (commit first) with
  | Some s, Some a, Some fa =>
      match user a, user fa with
      | Some u, Some fu => isValid s && String.eqb (login u) (login fu)
      | _, _ => false
      end
  | _, _, _ => false
  end.

(** The five preconditions that [tryMerge] checks before the modification
    detector, as the text of the skip message of the first one that fails. *)
Definition skipReason (information : PullRequestInformation) : option string :=
  if negb (String.eqb (mergeableState information) "MERGEABLE") then
    Some ("Pull request is not in a mergeable state: "
          ++ mergeableState information ++ ".")%string
  else if merged information then Some "Pull request is already merged."
  else match mergeStateStatus information with
       | Some status =>
           if negb (String.eqb status "CLEAN") then
             Some ("Pull request cannot be merged cleanly. Current state: "
                   ++ status ++ ".")%string
           else if negb (String.eqb (pullRequestState information) "OPEN") then
             Some ("Pull request is not open: "
                   ++ pullRequestState information ++ ".")%string
           else if checkPullRequestTitleForMergePreset (pullRequestTitle information)
                then None
                else Some "Pull request version bump is not allowed by PRESET."
       | None =>
           if negb (String.eqb (pullRequestState information) "OPEN") then
             Some ("Pull request is not open: "
                   ++ pullRequestState information ++ ".")%string
           else if checkPullRequestTitleForMergePreset (pullRequestTitle information)
                then None
                else Some "Pull request version bump is not allowed by PRESET."
       end.

Definition commitsQueryOf (information : PullRequestInformation) : CommitsQuery :=
  mkQuery (pullRequestNumber information) (repositoryName information)
          (repositoryOwner information).

Definition detailsOf (maximumRetries : Z) (information : PullRequestInformation)
  : PullRequestDetails :=
  mkDetails (commitMessageHeadline information) (infoPullRequestId information)
            (nth_error (reviewEdges information) 0) maximumRetries 1.

Definition withMergeStateStatus (status : option string)
    (information : PullRequestInformation) : PullRequestInformation :=
  mkInformation (commitMessageHeadline information) (mergeableState information)
                status (merged information) (infoPullRequestId information)
                (pullRequestNumber information) (pullRequestState information)
                (pullRequestTitle information) (reviewEdges information)
                (repositoryName information) (repositoryOwner information).

Definition withReviewEdges (edges : list ReviewEdge)
    (information : PullRequestInformation) : PullRequestInformation :=
  mkInformation (commitMessageHeadline information) (mergeableState information)
                (mergeStateStatus information) (merged information)
                (infoPullRequestId information) (pullRequestNumber information)
                (pullRequestState information) (pullRequestTitle information)
                edges (repositoryName information) (repositoryOwner information).

(** What the loop makes of the loop body's result at the commit that ends it. *)
Definition loopExit (r : Outcome (option bool) * Trace) : Outcome bool * Trace :=
  match r with
  | (Thrown e, t) => (Thrown e, t)
  | (Returned (Some b), t) => (Returned b, t)
  | (Returned None, t) => (Returned false, t)
  end.

(** Events of the commit traversal: page queries and log lines. *)
Definition isFetchOrLog (ev : Event) : bool :=
  match ev with
  | Query _ _ | Log _ _ => true
  | _ => false
  end.

(** [n] repetitions of one attempt: the merge method resolved, the mutation sent. *)
Definition attempts (details : PullRequestDetails) (n : nat) : Trace :=
  List.concat (repeat [ParseInputMergeMethod;
                       Mutate (chosenMutation details) (chosenVariables details)] n).

(** How the events added by a retry run end: with the mutation that went
    through, or with the two lines that report the failure. *)
Definition mergedOrReported (details : PullRequestDetails) (added : Trace) : Prop :=
  (exists prefix,
     added = prefix ++ [Mutate (chosenMutation details) (chosenVariables details)]) \/
  (exists prefix e,
     added = prefix
             ++ [Log Info ("An error ocurred while merging the Pull Request. This is usually "
                           ++ "caused by the base branch being out of sync with the target "
                           ++ "branch. In this case, the base branch must be rebased. Some "
                           ++ "tools, such as Dependabot, do that automatically.")%string;
                 Log Debug ("Original error: " ++ errorToString e ++ ".")%string]).

(** Every mutation is rejected with the retryable message. *)
Definition alwaysRejected (octokit : Octokit) : Prop :=
  forall t mutation variables,
    exists e, mutationError octokit t mutation variables = Some e /\
              includes (message e) "Base branch was modified." = true.

(** The run that retries [n] times from [details] and then gives up with
    error [e]. *)
Fixpoint exhaustedRun (details : PullRequestDetails) (n : nat) (e : Error) : Trace :=
  match n with
  | O =>
      [ParseInputMergeMethod;
       Mutate (chosenMutation details) (chosenVariables details);
       Log Info ("Unable to merge after " ++ toString (retryCount details)
                 ++ " attempts. Retries exhausted.")%string;
       Log Info ("An error ocurred while merging the Pull Request. This is usually "
                 ++ "caused by the base branch being out of sync with the target "
                 ++ "branch. In this case, the base branch must be rebased. Some "
                 ++ "tools, such as Dependabot, do that automatically.")%string;
       Log Debug ("Original error: " ++ errorToString e ++ ".")%string]
  | S n' =>
      let nextRetryIn := retryCount details ^ EXPONENTIAL_BACKOFF * MINIMUM_WAIT_TIME in
      [ParseInputMergeMethod;
       Mutate (chosenMutation details) (chosenVariables details);
       Log Info ("Retrying in " ++ toString nextRetryIn ++ "...")%string;
       Delay nextRetryIn]
      ++ exhaustedRun (nextAttempt details) n' e
  end.

(** ** Further observations *)

(** The error on which a traversal of the whole history ends, if it ends on one. *)
Fixpoint historyFailure (history : CommitHistory) : option Error :=
  match history with
  | LastPage _ _ => None
  | NextPage _ _ rest => historyFailure rest
  | FailedPage e => Some e
  end.

Definition iteratorFailure (iterator : Iterator) : option Error :=
  match upcoming iterator with
  | None => None
  | Some (_, history) => historyFailure history
  end.

(** The queries an iterator issues when it is drained. *)
Definition iteratorAllQueries (iterator : Iterator) : Trace :=
  match upcoming iterator with
  | None => []
  | Some (cursor, history) => allQueries (iterQuery iterator) cursor history
  end.

(** The commit queries of a trace, by cursor, in order. *)
Definition queriesOf (t : Trace) : list (CommitsQuery * option string) :=
  flat_map (fun ev => match ev with
                      | Query q c => [(q, c)]
                      | _ => []
                      end) t.

(** Events of a retry run: resolutions of the merge method, mutations,
    suspensions and log lines. *)
Definition isMergeEvent (ev : Event) : bool :=
  match ev with
  | ParseInputMergeMethod | Mutate _ _ | Delay _ | Log _ _ => true
  | _ => false
  end.

(** A commit with its signature replaced. *)
Definition withSignature (s : option Signature) (node : PullRequestCommitNode)
  : PullRequestCommitNode :=
  mkNode (mkCommit (author (commit node)) s).

(** A history with the signature of its first commit replaced. *)
Fixpoint resignFirst (s : option Signature) (history : CommitHistory) : CommitHistory :=
  match history with
  | LastPage (node :: more) endCursor => LastPage (withSignature s node :: more) endCursor
  | LastPage [] endCursor => LastPage [] endCursor
  | NextPage (node :: more) endCursor rest =>
      NextPage (withSignature s node :: more) endCursor rest
  | NextPage [] endCursor rest => NextPage [] endCursor (resignFirst s rest)
  | FailedPage e => FailedPage e
  end.

(** The executor that serves every history with its first commit re-signed. *)
Definition resigned (s : option Signature) (octokit : Octokit) : Octokit :=
  mkOctokit (fun query => resignFirst s (commits octokit query)) (mutationError octokit).

(** The events of [k] attempts from [details] that were each rejected and
    retried. *)
Fixpoint retriedRun (details : PullRequestDetails) (k : nat) : Trace :=
  match k with
  | O => []
  | S k' =>
      let nextRetryIn := retryCount details ^ EXPONENTIAL_BACKOFF * MINIMUM_WAIT_TIME in
      [ParseInputMergeMethod;
       Mutate (chosenMutation details) (chosenVariables details);
       Log Info ("Retrying in " ++ toString nextRetryIn ++ "...")%string;
       Delay nextRetryIn]
      ++ retriedRun (nextAttempt details) k'
  end.

(** The waits of [k] retries that start at retry count [count]. *)
Definition waits (count : Z) (k : nat) : list Z :=
  map (fun i => (count + Z.of_nat i) ^ EXPONENTIAL_BACKOFF * MINIMUM_WAIT_TIME) (seq 0 k).

(** The same details with another review edge. *)
Definition withReviewEdge (edge : option ReviewEdge) (details : PullRequestDetails)
  : PullRequestDetails :=
  mkDetails (commitHeadline details) (pullRequestId details) edge
            (maximumRetries details) (retryCount details).

(** ** Example data *)

Definition signedBy (l : string) : PullRequestCommitNode :=
  mkNode (mkCommit (Some (mkAuthor (Some (mkUser l)))) (Some (mkSignature true))).

Definition unsignedBy (l : string) : PullRequestCommitNode :=
  mkNode (mkCommit (Some (mkAuthor (Some (mkUser l)))) None).

Definition signedByNobody : PullRequestCommitNode :=
  mkNode (mkCommit None (Some (mkSignature true))).

Definition exampleQuery : CommitsQuery := mkQuery 7 "merge-me-action" "ridedott".

(** An executor that serves [history] to every commit query and accepts
    every mutation. *)
Definition serving (history : CommitHistory) : Octokit :=
  mkOctokit (fun _ => history) (fun _ _ _ => None).

Definition exampleInformation : PullRequestInformation :=
  mkInformation "Bump typescript from 4.1.2 to 4.1.3" "MERGEABLE" None false
                "MDExOlB1bGxSZXF1ZXN0MzE3MDI5MjU4" 7 "OPEN"
                "Bump typescript from 4.1.2 to 4.1.3" [] "merge-me-action" "ridedott".

Definition exampleInputs : Inputs := mkInputs "dependabot[bot]" "false".

Definition baseBranchModified : Error :=
  mkError "GraphqlError" "Base branch was modified. Review and try the merge again.".

(** An executor that rejects every mutation because the base branch moved. *)
Definition rejecting : Octokit :=
  mkOctokit (fun _ => LastPage [] None) (fun _ _ _ => Some baseBranchModified).

(** An executor that rejects every mutation for a reason that retrying
    does not cure. *)
Definition refusing : Octokit :=
  mkOctokit (fun _ => LastPage [] None)
            (fun _ _ _ => Some (mkError "GraphqlError" "Pull Request is not mergeable")).

(** An executor that rejects the first mutation because the base branch
    moved, and accepts the following ones. *)
Definition rejectingOnce : Octokit :=
  mkOctokit (fun _ => LastPage [] None)
            (fun t _ _ => match mutationsOf t with
                          | [] => Some baseBranchModified
                          | _ => None
                          end).

(** ** Unfolding the two loops *)

Lemma forAwait_step first iterator t :
  forAwait first iterator t =
  match next iterator t with
  | (Thrown e, t1) => (Thrown e, t1)
  | (Returned (IterDone, _), t1) => (Returned false, t1)
  | (Returned (IterValue commitNode, iterator'), t1) =>
      match loopBody first commitNode t1 with
      | (Thrown e, t2) => (Thrown e, t2)
      | (Returned (Some b), t2) => (Returned b, t2)
      | (Returned None, t2) => forAwait first iterator' t2
      end
  end.
Proof.
  rewrite forAwait_equation_1.
  destruct (inspect (next iterator t)) as [[[[[commitNode |] iterator'] | e] t1] Heq].
  - simp forAwait.
    destruct (loopBody first commitNode t1) as [[[b |] | e] t2] eqn:Hbody;
      simp forAwait; rewrite Heq, Hbody; try reflexivity.
    rewrite <- forAwait_equation_1. reflexivity.
  - simp forAwait. rewrite Heq. reflexivity.
  - simp forAwait. rewrite Heq. reflexivity.
Qed.

Lemma mergeWithRetry_step octokit details t :
  mergeWithRetry octokit details t =
  match merge octokit details t with
  | (Returned _, t1) => (Returned tt, t1)
  | (Thrown error, t1) =>
      match shouldRetry error (retryCount details) (maximumRetries details) t1 with
      | (Thrown e, t2) => (Thrown e, t2)
      | (Returned true, t2) =>
          let nextRetryIn := retryCount details ^ EXPONENTIAL_BACKOFF * MINIMUM_WAIT_TIME in
          mergeWithRetry octokit (nextAttempt details)
            (t2 ++ [Log Info ("Retrying in " ++ toString nextRetryIn ++ "...")%string;
                    Delay nextRetryIn])
      | (Returned false, t2) =>
          (Returned tt,
           t2 ++ [Log Info ("An error ocurred while merging the Pull Request. This is usually "
                            ++ "caused by the base branch being out of sync with the target "
                            ++ "branch. In this case, the base branch must be rebased. Some "
                            ++ "tools, such as Dependabot, do that automatically.")%string;
                  Log Debug ("Original error: " ++ errorToString error ++ ".")%string])
      end
  end.
Proof.
  rewrite mergeWithRetry_equation_1.
  destruct (merge octokit details t) as [[u | error] t1]; simp mergeWithRetry;
    try reflexivity.
  destruct (inspect (shouldRetry error (retryCount details) (maximumRetries details) t1))
    as [[[[|] | e] t2] Hretry]; simp mergeWithRetry.
  - cbv beta zeta iota delta [bind logInfo delay emit].
    simp mergeWithRetry. rewrite Hretry. rewrite <- mergeWithRetry_equation_1.
    cbv zeta. rewrite <- app_assoc. reflexivity.
  - rewrite Hretry. cbv beta zeta iota delta [bind logInfo logDebug emit].
    rewrite <- app_assoc. reflexivity.
  - rewrite Hretry. reflexivity.
Qed.

(** ** The paginated fetcher yields the commits in order *)

Lemma refill_reach query cursor history t c rest :
  historyCommits history = c :: rest ->
  exists iterator',
    refill query cursor history t
    = (Returned (IterValue c, iterator'), t ++ queriesToReach query cursor 0 history) /\
    iteratorCommits iterator' = rest /\
    iterQuery iterator' = query /\
    forall k, queriesToReach query cursor (S k) history
              = queriesToReach query cursor 0 history ++ iteratorQueries k iterator'.
Proof.
  revert cursor t.
  induction history as [nodes ec | nodes ec more IH | e]; intros cursor t Hc;
    simpl in Hc.
  - subst nodes. eexists. simpl. split; [reflexivity |].
    unfold iteratorCommits, iteratorQueries; simpl.
    rewrite app_nil_r. repeat split.
    intros k. destruct (k <? _)%nat; reflexivity.
  - destruct nodes as [| node nodes].
    + simpl in Hc. destruct (IH ec (t ++ [Query query cursor]) Hc)
        as (iterator' & Hrun & Hcommits & Hquery & Hqueries).
      exists iterator'. simpl. rewrite Hrun, <- app_assoc. repeat split; auto.
      intros k. rewrite Hqueries. reflexivity.
    + simpl in Hc. inversion Hc; subst; clear Hc.
      eexists. simpl. split; [reflexivity |].
      unfold iteratorCommits, iteratorQueries; simpl. repeat split.
  - discriminate.
Qed.

Lemma next_reach iterator t c rest :
  iteratorCommits iterator = c :: rest ->
  exists iterator',
    next iterator t = (Returned (IterValue c, iterator'), t ++ iteratorQueries 0 iterator) /\
    iteratorCommits iterator' = rest /\
    iterQuery iterator' = iterQuery iterator /\
    forall k, iteratorQueries (S k) iterator
              = iteratorQueries 0 iterator ++ iteratorQueries k iterator'.
Proof.
  destruct iterator as [query buf up]. unfold iteratorCommits, next; simpl.
  destruct buf as [| node more]; simpl.
  - destruct up as [[cursor history] |]; [| discriminate].
    intros Hc. destruct (refill_reach query cursor history t c rest Hc)
      as (iterator' & Hrun & Hcommits & Hquery & Hqueries).
    exists iterator'. unfold iteratorQueries; simpl. repeat split; auto.
  - intros Hc; inversion Hc; subst; clear Hc.
    eexists. unfold iteratorQueries; simpl. rewrite app_nil_r. repeat split.
Qed.

(** ** The loop body, case by case *)

Lemma loopBody_pass first node t :
  sameSignedAuthor first node = true ->
  loopBody first node t = (Returned None, t).
Proof.
  unfold sameSignedAuthor, loopBody, authorUserLogin.
  destruct (signature (commit node)) as [[valid] |]; [| discriminate].
  destruct (author (commit node)) as [[[u |]] |]; try discriminate;
    destruct (author (commit first)) as [[[fu |]] |]; try discriminate.
  simpl. intros H. apply andb_prop in H. destruct H as [Hvalid Hlogin].
  subst valid. unfold bind, ret. simpl. rewrite Hlogin. reflexivity.
Qed.

Lemma loopBody_unsigned first node t :
  match signature (commit node) with
  | None => True
  | Some s => isValid s = false
  end ->
  loopBody first node t
  = (Returned (Some true),
     t ++ [Log Warning "Commit signature not present or invalid, regarding PR as modified."]).
Proof.
  unfold loopBody. destruct (signature (commit node)) as [[valid] |]; simpl.
  - intros ->. reflexivity.
  - reflexivity.
Qed.

Lemma loopBody_differs first node t commitLogin firstLogin :
  signature (commit node) = Some (mkSignature true) ->
  author (commit node) = Some (mkAuthor (Some (mkUser commitLogin))) ->
  author (commit first) = Some (mkAuthor (Some (mkUser firstLogin))) ->
  commitLogin <> firstLogin ->
  loopBody first node t = (Returned (Some true), t).
Proof.
  intros Hs Ha Hf Hneq. unfold loopBody, authorUserLogin. rewrite Hs, Ha, Hf. simpl.
  unfold bind, ret. simpl.
  destruct (String.eqb commitLogin firstLogin) eqn:Heq; [| reflexivity].
  apply String.eqb_eq in Heq. contradiction.
Qed.

Lemma loopBody_no_author first node t :
  signature (commit node) = Some (mkSignature true) ->
  author (commit node) = None ->
  loopBody first node t = (Thrown (nullPropertyError "user"), t).
Proof.
  intros Hs Ha. unfold loopBody, authorUserLogin. rewrite Hs, Ha. reflexivity.
Qed.

Lemma loopBody_no_user first node t :
  signature (commit node) = Some (mkSignature true) ->
  author (commit node) = Some (mkAuthor None) ->
  loopBody first node t = (Thrown (nullPropertyError "login"), t).
Proof.
  intros Hs Ha. unfold loopBody, authorUserLogin. rewrite Hs, Ha. reflexivity.
Qed.

(** ** The detector along a commit sequence *)

Lemma forAwait_reach first pre : forall iterator t c post,
  iteratorCommits iterator = pre ++ c :: post ->
  forallb (sameSignedAuthor first) pre = true ->
  fst (loopBody first c (t ++ iteratorQueries (List.length pre) iterator)) <> Returned None ->
  forAwait first iterator t
  = loopExit (loopBody first c (t ++ iteratorQueries (List.length pre) iterator)).
Proof.
  induction pre as [| node pre IH]; intros iterator t c post Hc Hpre Hexit; simpl in *.
  - destruct (next_reach iterator t c post Hc) as (iterator' & Hnext & _).
    rewrite forAwait_step, Hnext.
    destruct (loopBody first c (t ++ iteratorQueries 0 iterator)) as [[[b |] | e] t2];
      simpl in *; congruence.
  - apply andb_prop in Hpre. destruct Hpre as [Hnode Hpre].
    destruct (next_reach iterator t node (pre ++ c :: post) Hc)
      as (iterator' & Hnext & Hcommits & _ & Hqueries).
    rewrite forAwait_step, Hnext, (loopBody_pass first node _ Hnode).
    rewrite Hqueries, app_assoc in *.
    apply IH with (post := post); assumption.
Qed.

Lemma getIsModified_reach octokit query t first pre c post :
  historyCommits (commits octokit query) = first :: pre ++ c :: post ->
  forallb (sameSignedAuthor first) pre = true ->
  let t1 := t ++ queriesToReach query None (S (List.length pre)) (commits octokit query) in
  fst (loopBody first c t1) <> Returned None ->
  getIsModified octokit query t = loopExit (loopBody first c t1).
Proof.
  intros Hc Hpre t1 Hexit. unfold getIsModified, bind.
  destruct (next_reach (makeGraphqlIterator octokit query) t first (pre ++ c :: post) Hc)
    as (iterator' & Hnext & Hcommits & _ & Hqueries).
  rewrite Hnext.
  assert (Ht1 : t1 = (t ++ iteratorQueries 0 (makeGraphqlIterator octokit query))
                     ++ iteratorQueries (List.length pre) iterator').
  { unfold t1. rewrite <- app_assoc, <- Hqueries.
    unfold iteratorQueries, makeGraphqlIterator; simpl. reflexivity. }
  rewrite Ht1 in *.
  apply forAwait_reach with (post := post); assumption.
Qed.

(** ** What each function adds to the trace *)

Lemma mutationsOf_app t1 t2 : mutationsOf (t1 ++ t2) = mutationsOf t1 ++ mutationsOf t2.
Proof. unfold mutationsOf. apply flat_map_app. Qed.

Lemma delaysOf_app t1 t2 : delaysOf (t1 ++ t2) = delaysOf t1 ++ delaysOf t2.
Proof. unfold delaysOf. apply flat_map_app. Qed.

Lemma attemptsOf_app t1 t2 : attemptsOf (t1 ++ t2) = attemptsOf t1 ++ attemptsOf t2.
Proof. unfold attemptsOf. apply filter_app. Qed.

Lemma withoutLogs_app t1 t2 : withoutLogs (t1 ++ t2) = withoutLogs t1 ++ withoutLogs t2.
Proof. unfold withoutLogs. apply filter_app. Qed.

Lemma fetchOrLog_no_mutation added :
  forallb isFetchOrLog added = true -> mutationsOf added = [].
Proof.
  induction added as [| ev added IH]; simpl; [reflexivity |].
  intros H. apply andb_prop in H. destruct H as [Hev Hrest].
  destruct ev; try discriminate; simpl; auto.
Qed.

Lemma refill_trace query cursor history t :
  exists added, snd (refill query cursor history t) = t ++ added /\
                forallb isFetchOrLog added = true.
Proof.
  revert cursor t.
  induction history as [nodes ec | nodes ec more IH | e]; intros cursor t; simpl.
  - destruct nodes; eexists; split; simpl; reflexivity.
  - destruct nodes.
    + destruct (IH ec (t ++ [Query query cursor])) as (added & Hrun & Hadded).
      exists (Query query cursor :: added). rewrite Hrun, <- app_assoc. split; auto.
    + eexists; split; simpl; reflexivity.
  - eexists; split; simpl; reflexivity.
Qed.

Lemma next_trace iterator t :
  exists added, snd (next iterator t) = t ++ added /\ forallb isFetchOrLog added = true.
Proof.
  unfold next. destruct (buffer iterator).
  - destruct (upcoming iterator) as [[cursor history] |].
    + apply refill_trace.
    + exists []. rewrite app_nil_r. split; reflexivity.
  - exists []. rewrite app_nil_r. split; reflexivity.
Qed.

Lemma loopBody_trace first node t :
  exists added, snd (loopBody first node t) = t ++ added /\
                forallb isFetchOrLog added = true.
Proof.
  unfold loopBody, authorUserLogin.
  destruct (signature (commit node)) as [[[|]] |]; simpl.
  - destruct (author (commit node)) as [[[u |]] |];
      destruct (author (commit first)) as [[[fu |]] |];
      unfold bind, ret, throw; simpl;
      try destruct (negb (String.eqb (login u) (login fu)));
      exists []; rewrite app_nil_r; split; reflexivity.
  - eexists; split; reflexivity.
  - eexists; split; reflexivity.
Qed.

Lemma forAwait_trace first : forall n iterator t,
  iteratorSize iterator = n ->
  exists added, snd (forAwait first iterator t) = t ++ added /\
                forallb isFetchOrLog added = true.
Proof.
  induction n as [n IH] using lt_wf_ind. intros iterator t Hn.
  rewrite forAwait_step.
  destruct (next_trace iterator t) as (a1 & Ht1 & Ha1).
  destruct (next iterator t) as [[[[commitNode |] iterator'] | e] t1] eqn:Hnext;
    simpl in Ht1; subst t1; try (exists a1; split; [reflexivity | assumption]).
  destruct (loopBody_trace first commitNode (t ++ a1)) as (a2 & Ht2 & Ha2).
  destruct (loopBody first commitNode (t ++ a1)) as [[[b |] | e] t2];
    simpl in Ht2; subst t2.
  - exists (a1 ++ a2). rewrite app_assoc, forallb_app, Ha1, Ha2. split; reflexivity.
  - apply next_decreases in Hnext.
    destruct (IH (iteratorSize iterator') ltac:(lia) iterator' ((t ++ a1) ++ a2) eq_refl)
      as (a3 & Ht3 & Ha3).
    exists (a1 ++ a2 ++ a3). rewrite Ht3, !forallb_app, Ha1, Ha2, Ha3, !app_assoc.
    split; reflexivity.
  - exists (a1 ++ a2). rewrite app_assoc, forallb_app, Ha1, Ha2. split; reflexivity.
Qed.

Lemma getIsModified_trace octokit query t :
  exists added, snd (getIsModified octokit query t) = t ++ added /\
                forallb isFetchOrLog added = true.
Proof.
  unfold getIsModified, bind.
  destruct (next_trace (makeGraphqlIterator octokit query) t) as (a1 & Ht1 & Ha1).
  destruct (next (makeGraphqlIterator octokit query) t)
    as [[[[firstValue |] iterator'] | e] t1]; simpl in Ht1; subst t1.
  - destruct (forAwait_trace firstValue _ iterator' (t ++ a1) eq_refl) as (a2 & Ht2 & Ha2).
    exists (a1 ++ a2). rewrite Ht2, forallb_app, Ha1, Ha2, app_assoc. split; reflexivity.
  - exists (a1 ++ [Log Warning "Could not find PR commits, aborting."]).
    unfold logWarning, emit, ret. simpl. rewrite forallb_app, Ha1, app_assoc.
    split; reflexivity.
  - exists a1. split; [reflexivity | assumption].
Qed.

(** ** One merge attempt *)

Lemma merge_run octokit details t :
  merge octokit details t
  = let t1 := t ++ [ParseInputMergeMethod] in
    let sent := [ParseInputMergeMethod;
                 Mutate (chosenMutation details) (chosenVariables details)] in
    match mutationError octokit t1 (chosenMutation details) (chosenVariables details) with
    | None => (Returned tt, t ++ sent)
    | Some e => (Thrown e, t ++ sent)
    end.
Proof.
  unfold merge, parseInputMergeMethod, bind, emit, ret, graphqlMutation,
    chosenMutation, chosenVariables. simpl.
  destruct (reviewEdge details);
    match goal with |- context [mutationError ?o ?t ?m ?v] =>
      destruct (mutationError o t m v) end;
    rewrite <- app_assoc; reflexivity.
Qed.

Lemma shouldRetry_false error retryCount maximumRetries t t' :
  shouldRetry error retryCount maximumRetries t = (Returned false, t') ->
  exists logged, t' = t ++ logged /\ forallb isFetchOrLog logged = true.
Proof.
  unfold shouldRetry.
  destruct (includes (message error) "Base branch was modified."); simpl.
  - destruct (retryCount >? maximumRetries); simpl.
    + unfold bind, logInfo, emit, ret. simpl. intros H; inversion H; subst.
      eexists; split; reflexivity.
    + unfold ret. discriminate.
  - unfold ret. intros H; inversion H; subst. exists []. rewrite app_nil_r.
    split; reflexivity.
Qed.

Lemma shouldRetry_returns error retryCount maximumRetries t e t' :
  shouldRetry error retryCount maximumRetries t <> (Thrown e, t').
Proof.
  unfold shouldRetry.
  destruct (includes (message error) "Base branch was modified."); simpl.
  - destruct (retryCount >? maximumRetries); simpl;
      unfold bind, logInfo, emit, ret; simpl; discriminate.
  - unfold ret. discriminate.
Qed.

Lemma fetchOrLog_no_attempt added :
  forallb isFetchOrLog added = true -> attemptsOf added = [].
Proof.
  induction added as [| ev added IH]; simpl; [reflexivity |].
  intros H. apply andb_prop in H. destruct H as [Hev Hrest].
  destruct ev; try discriminate; simpl; auto.
Qed.

(** ** The retry loop always returns *)

Lemma mergeWithRetry_run octokit : forall n details t,
  Z.to_nat (maximumRetries details + 1 - retryCount details) = n ->
  exists added k,
    mergeWithRetry octokit details t = (Returned tt, t ++ added) /\
    attemptsOf added = attempts details (S k) /\
    mergedOrReported details added.
Proof.
  induction n as [n IH] using lt_wf_ind. intros details t Hn.
  rewrite mergeWithRetry_step, merge_run. cbv zeta.
  set (sent := [ParseInputMergeMethod;
                Mutate (chosenMutation details) (chosenVariables details)]).
  destruct (mutationError octokit _ _ _) as [error |].
  - destruct (shouldRetry error (retryCount details) (maximumRetries details) (t ++ sent))
      as [[[|] | e] t2] eqn:Hretry.
    + apply shouldRetry_true in Hretry. destruct Hretry as (_ & Hle & ->).
      cbv zeta.
      match goal with |- context [(t ++ sent) ++ ?w] => set (waited := w) end.
      destruct (IH (Z.to_nat (maximumRetries (nextAttempt details) + 1
                              - retryCount (nextAttempt details)))
                   ltac:(simpl; lia) (nextAttempt details) ((t ++ sent) ++ waited) eq_refl)
        as (added & k & Hrun & Hattempts & Hend).
      rewrite Hrun.
      exists (sent ++ waited ++ added), (S k). split; [| split].
      * rewrite <- !app_assoc. reflexivity.
      * rewrite !attemptsOf_app, Hattempts. reflexivity.
      * destruct Hend as [(prefix & ->) | (prefix & e & ->)].
        -- left. exists (sent ++ waited ++ prefix). rewrite <- !app_assoc. reflexivity.
        -- right. exists (sent ++ waited ++ prefix), e. rewrite <- !app_assoc. reflexivity.
    + apply shouldRetry_false in Hretry. destruct Hretry as (logged & -> & Hlogged).
      match goal with |- context [((t ++ sent) ++ logged) ++ ?w] => set (reported := w) end.
      exists (sent ++ logged ++ reported), 0%nat. split; [| split].
      * rewrite <- !app_assoc. reflexivity.
      * rewrite !attemptsOf_app, (fetchOrLog_no_attempt logged Hlogged). reflexivity.
      * right. exists (sent ++ logged), error. rewrite <- !app_assoc. reflexivity.
    + exfalso. eapply shouldRetry_returns; eassumption.
  - exists sent, 0%nat. split; [| split]; try reflexivity.
    left. exists [ParseInputMergeMethod]. reflexivity.
Qed.

(** ** The entry point, by outcome of the eligibility checks *)

Lemma tryMerge_run inputs octokit maximumRetries information t :
  tryMerge inputs octokit maximumRetries information t
  = let t0 := t ++ [GetInput "GITHUB_LOGIN"; GetInput "ENABLED_FOR_MANUAL_CHANGES"] in
    match skipReason information with
    | Some text => (Returned tt, t0 ++ [Log Info text])
    | None =>
        if String.eqb (ENABLED_FOR_MANUAL_CHANGES inputs) "true" then
          mergeWithRetry octokit (detailsOf maximumRetries information) t0
        else
          match getIsModified octokit (commitsQueryOf information) t0 with
          | (Thrown e, t1) => (Thrown e, t1)
          | (Returned true, t1) =>
              (Returned tt,
               t1 ++ [Log Info ("Pull request changes were not made by "
                                ++ GITHUB_LOGIN inputs ++ ".")%string])
          | (Returned false, t1) =>
              mergeWithRetry octokit (detailsOf maximumRetries information) t1
          end
    end.
Proof.
  unfold tryMerge, skipReason, getInput, bind, emit, ret, logInfo, detailsOf,
    commitsQueryOf.
  change (inputValue inputs "GITHUB_LOGIN") with (GITHUB_LOGIN inputs).
  change (inputValue inputs "ENABLED_FOR_MANUAL_CHANGES")
    with (ENABLED_FOR_MANUAL_CHANGES inputs).
  cbv zeta. rewrite <- app_assoc. change ([?a] ++ [?b]) with [a; b].
  destruct (negb (String.eqb (mergeableState information) "MERGEABLE")); [reflexivity |].
  destruct (merged information); [reflexivity |].
  destruct (mergeStateStatus information) as [status |].
  - destruct (negb (String.eqb status "CLEAN")); [reflexivity |].
    destruct (negb (String.eqb (pullRequestState information) "OPEN")); [reflexivity |].
    destruct (checkPullRequestTitleForMergePreset (pullRequestTitle information));
      [| reflexivity].
    destruct (String.eqb (ENABLED_FOR_MANUAL_CHANGES inputs) "true"); [reflexivity |].
    cbn [Bool.eqb]. 
    destruct (getIsModified octokit _ _) as [[[|] | e] t1]; reflexivity.
  - destruct (negb (String.eqb (pullRequestState information) "OPEN")); [reflexivity |].
    destruct (checkPullRequestTitleForMergePreset (pullRequestTitle information));
      [| reflexivity].
    destruct (String.eqb (ENABLED_FOR_MANUAL_CHANGES inputs) "true"); [reflexivity |].
    cbn [Bool.eqb].
    destruct (getIsModified octokit _ _) as [[[|] | e] t1]; reflexivity.
Qed.

(** ** Retrying against a base branch that keeps moving *)

Lemma shouldRetry_again error retryCount maximumRetries t :
  includes (message error) "Base branch was modified." = true ->
  retryCount <= maximumRetries ->
  shouldRetry error retryCount maximumRetries t = (Returned true, t).
Proof.
  intros Hinc Hle. unfold shouldRetry. rewrite Hinc.
  replace (retryCount >? maximumRetries) with false by lia. reflexivity.
Qed.

Lemma shouldRetry_exhausted error retryCount maximumRetries t :
  includes (message error) "Base branch was modified." = true ->
  retryCount > maximumRetries ->
  shouldRetry error retryCount maximumRetries t
  = (Returned false,
     t ++ [Log Info ("Unable to merge after " ++ toString retryCount
                     ++ " attempts. Retries exhausted.")%string]).
Proof.
  intros Hinc Hgt. unfold shouldRetry. rewrite Hinc.
  replace (retryCount >? maximumRetries) with true by lia. reflexivity.
Qed.

Lemma mergeWithRetry_exhausts octokit :
  alwaysRejected octokit ->
  forall n details t,
    Z.to_nat (maximumRetries details + 1 - retryCount details) = n ->
    exists e, includes (message e) "Base branch was modified." = true /\
              mergeWithRetry octokit details t
              = (Returned tt, t ++ exhaustedRun details n e).
Proof.
  intros Hrejected. induction n as [| n IH]; intros details t Hn;
    rewrite mergeWithRetry_step, merge_run; cbv zeta;
    destruct (Hrejected (t ++ [ParseInputMergeMethod]) (chosenMutation details)
                        (chosenVariables details)) as (e & -> & Hinc).
  - exists e. split; [assumption |].
    rewrite (shouldRetry_exhausted e _ _ _ Hinc) by lia.
    simpl. rewrite <- !app_assoc. reflexivity.
  - rewrite (shouldRetry_again e _ _ _ Hinc) by lia.
    destruct (IH (nextAttempt details)
                 ((t ++ [ParseInputMergeMethod;
                         Mutate (chosenMutation details) (chosenVariables details)])
                  ++ [Log Info ("Retrying in "
                                ++ toString (retryCount details ^ EXPONENTIAL_BACKOFF
                                             * MINIMUM_WAIT_TIME) ++ "...")%string;
                      Delay (retryCount details ^ EXPONENTIAL_BACKOFF
                             * MINIMUM_WAIT_TIME)])
                 ltac:(simpl; lia)) as (e' & Hinc' & Hrun).
    exists e'. split; [assumption |].
    rewrite Hrun. simpl. rewrite <- !app_assoc. reflexivity.
Qed.

Lemma exhaustedRun_mutations details n e :
  List.length (mutationsOf (exhaustedRun details n e)) = S n.
Proof.
  revert details. induction n as [| n IH]; intros details; simpl; [reflexivity |].
  rewrite IH. reflexivity.
Qed.

Lemma exhaustedRun_delays details n e :
  delaysOf (exhaustedRun details n e)
  = map (fun i => (retryCount details + Z.of_nat i) ^ EXPONENTIAL_BACKOFF
                  * MINIMUM_WAIT_TIME) (seq 0 n).
Proof.
  revert details. induction n as [| n IH]; intros details; [reflexivity |].
  cbn [exhaustedRun]. cbv zeta. rewrite delaysOf_app, IH.
  cbn [seq map]. rewrite <- seq_shift, map_map.
  change (delaysOf _) with [retryCount details ^ EXPONENTIAL_BACKOFF * MINIMUM_WAIT_TIME].
  cbn [app]. rewrite Z.add_0_r. f_equal.
  apply map_ext. intros i. simpl retryCount. do 2 f_equal. lia.
Qed.

(** ** The detector on a history that it traverses to the end *)

Lemma refill_reach_all query cursor history t c rest :
  historyCommits history = c :: rest ->
  exists iterator',
    refill query cursor history t
    = (Returned (IterValue c, iterator'), t ++ queriesToReach query cursor 0 history) /\
    iteratorCommits iterator' = rest /\
    iterQuery iterator' = query /\
    iteratorFailure iterator' = historyFailure history /\
    allQueries query cursor history
    = queriesToReach query cursor 0 history ++ iteratorAllQueries iterator'.
Proof.
  revert cursor t.
  induction history as [nodes ec | nodes ec more IH | e]; intros cursor t Hc;
    simpl in Hc.
  - subst nodes. eexists. simpl. split; [reflexivity |].
    unfold iteratorCommits, iteratorFailure, iteratorAllQueries; simpl.
    rewrite app_nil_r. repeat split.
  - destruct nodes as [| node nodes].
    + simpl in Hc. destruct (IH ec (t ++ [Query query cursor]) Hc)
        as (iterator' & Hrun & Hcommits & Hquery & Hfail & Hall).
      exists iterator'. simpl. rewrite Hrun, <- app_assoc. repeat split; auto.
      rewrite Hall. reflexivity.
    + simpl in Hc. inversion Hc; subst; clear Hc.
      eexists. simpl. split; [reflexivity |].
      unfold iteratorCommits, iteratorFailure, iteratorAllQueries; simpl. repeat split.
  - discriminate.
Qed.

Lemma next_reach_all iterator t c rest :
  iteratorCommits iterator = c :: rest ->
  exists iterator',
    next iterator t = (Returned (IterValue c, iterator'), t ++ iteratorQueries 0 iterator) /\
    iteratorCommits iterator' = rest /\
    iteratorFailure iterator' = iteratorFailure iterator /\
    iteratorAllQueries iterator = iteratorQueries 0 iterator ++ iteratorAllQueries iterator'.
Proof.
  destruct iterator as [query buf up]. unfold iteratorCommits, next; simpl.
  destruct buf as [| node more]; simpl.
  - destruct up as [[cursor history] |]; [| discriminate].
    intros Hc. destruct (refill_reach_all query cursor history t c rest Hc)
      as (iterator' & Hrun & Hcommits & Hquery & Hfail & Hall).
    exists iterator'. unfold iteratorQueries, iteratorFailure at 2, iteratorAllQueries at 1;
      simpl. repeat split; auto.
  - intros Hc; inversion Hc; subst; clear Hc.
    eexists. unfold iteratorQueries; simpl. rewrite app_nil_r. repeat split.
Qed.

Lemma refill_exhausted query cursor history t :
  historyCommits history = [] ->
  refill query cursor history t
  = (match historyFailure history with
     | None => Returned (IterDone, mkIterator query [] None)
     | Some e => Thrown e
     end, t ++ allQueries query cursor history).
Proof.
  revert cursor t.
  induction history as [nodes ec | nodes ec more IH | e]; intros cursor t Hc;
    simpl in Hc.
  - subst nodes. reflexivity.
  - apply app_eq_nil in Hc. destruct Hc as [-> Hmore]. simpl.
    rewrite (IH ec _ Hmore), <- app_assoc. reflexivity.
  - reflexivity.
Qed.

Lemma next_exhausted iterator t :
  iteratorCommits iterator = [] ->
  match iteratorFailure iterator with
  | None => exists iterator',
      next iterator t = (Returned (IterDone, iterator'), t ++ iteratorAllQueries iterator)
  | Some e => next iterator t = (Thrown e, t ++ iteratorAllQueries iterator)
  end.
Proof.
  destruct iterator as [query buf up].
  unfold iteratorCommits, iteratorFailure, iteratorAllQueries, next; simpl.
  intros Hc. apply app_eq_nil in Hc. destruct Hc as [-> Hup].
  destruct up as [[cursor history] |].
  - rewrite (refill_exhausted query cursor history t Hup).
    destruct (historyFailure history); eauto.
  - rewrite app_nil_r. eauto.
Qed.

Lemma forAwait_exhausts first : forall rest iterator t,
  iteratorCommits iterator = rest ->
  forallb (sameSignedAuthor first) rest = true ->
  forAwait first iterator t
  = (match iteratorFailure iterator with
     | None => Returned false
     | Some e => Thrown e
     end, t ++ iteratorAllQueries iterator).
Proof.
  induction rest as [| c rest IH]; intros iterator t Hc Hpass.
  - pose proof (next_exhausted iterator t Hc) as Hnext. rewrite forAwait_step.
    destruct (iteratorFailure iterator) as [e |].
    + rewrite Hnext. reflexivity.
    + destruct Hnext as (iterator' & ->). reflexivity.
  - simpl in Hpass. apply andb_prop in Hpass. destruct Hpass as [Hc1 Hrest].
    destruct (next_reach_all iterator t c rest Hc)
      as (iterator' & Hnext & Hcommits & Hfail & Hall).
    rewrite forAwait_step, Hnext, (loopBody_pass first c _ Hc1).
    rewrite (IH iterator' _ Hcommits Hrest), Hfail, Hall, app_assoc. reflexivity.
Qed.

Lemma getIsModified_exhausts octokit query t first rest :
  historyCommits (commits octokit query) = first :: rest ->
  forallb (sameSignedAuthor first) rest = true ->
  getIsModified octokit query t
  = (match historyFailure (commits octokit query) with
     | None => Returned false
     | Some e => Thrown e
     end, t ++ allQueries query None (commits octokit query)).
Proof.
  intros Hc Hpass. unfold getIsModified, bind.
  destruct (next_reach_all (makeGraphqlIterator octokit query) t first rest Hc)
    as (iterator' & Hnext & Hcommits & Hfail & Hall).
  rewrite Hnext, (forAwait_exhausts first rest iterator' _ Hcommits Hpass), Hfail.
  unfold iteratorAllQueries at 1 in Hall. simpl in Hall.
  rewrite Hall, app_assoc. reflexivity.
Qed.

Lemma getIsModified_no_commits octokit query t :
  historyCommits (commits octokit query) = [] ->
  getIsModified octokit query t
  = match historyFailure (commits octokit query) with
    | None =>
        (Returned true,
         (t ++ allQueries query None (commits octokit query))
         ++ [Log Warning "Could not find PR commits, aborting."])
    | Some e => (Thrown e, t ++ allQueries query None (commits octokit query))
    end.
Proof.
  intros Hc. unfold getIsModified, bind, next, makeGraphqlIterator. simpl.
  rewrite (refill_exhausted query None _ t Hc).
  destruct (historyFailure (commits octokit query)); reflexivity.
Qed.

(** ** What a [false] answer of the detector tells *)

Lemma sameSignedAuthor_spec first node :
  sameSignedAuthor first node = true <->
  signature (commit node) = Some (mkSignature true) /\
  exists l, author (commit node) = Some (mkAuthor (Some (mkUser l))) /\
            author (commit first) = Some (mkAuthor (Some (mkUser l))).
Proof.
  unfold sameSignedAuthor. split.
  - destruct (signature (commit node)) as [[valid] |]; [| discriminate].
    destruct (author (commit node)) as [[[[l] |]] |]; try discriminate;
      destruct (author (commit first)) as [[[[fl] |]] |]; try discriminate.
    simpl. intros H. apply andb_prop in H. destruct H as [-> Heq].
    apply String.eqb_eq in Heq. subst fl. split; [reflexivity |].
    exists l. split; reflexivity.
  - intros (-> & l & -> & ->). simpl. apply String.eqb_refl.
Qed.

Lemma loopBody_continue_inv first node t t2 :
  loopBody first node t = (Returned None, t2) -> sameSignedAuthor first node = true.
Proof.
  unfold loopBody, sameSignedAuthor, authorUserLogin.
  destruct (signature (commit node)) as [[[|]] |]; simpl;
    try (unfold bind, logWarning, emit, ret; simpl; discriminate).
  destruct (author (commit node)) as [[[u |]] |];
    destruct (author (commit first)) as [[[fu |]] |];
    unfold bind, ret, throw; simpl; try discriminate.
  destruct (String.eqb (login u) (login fu)); simpl; [reflexivity | discriminate].
Qed.

Lemma loopBody_return_inv first node t b t2 :
  loopBody first node t = (Returned (Some b), t2) -> b = true.
Proof.
  unfold loopBody, authorUserLogin.
  destruct (signature (commit node)) as [[[|]] |]; simpl;
    try (unfold bind, logWarning, emit, ret; simpl; intros H; inversion H; reflexivity).
  destruct (author (commit node)) as [[[u |]] |];
    destruct (author (commit first)) as [[[fu |]] |];
    unfold bind, ret, throw; simpl; try discriminate.
  destruct (String.eqb (login u) (login fu)); simpl; intros H; inversion H; reflexivity.
Qed.

Lemma forAwait_false_inv first : forall rest iterator t t',
  iteratorCommits iterator = rest ->
  forAwait first iterator t = (Returned false, t') ->
  forallb (sameSignedAuthor first) rest = true /\ iteratorFailure iterator = None.
Proof.
  induction rest as [| c rest IH]; intros iterator t t' Hc Hrun.
  - split; [reflexivity |].
    pose proof (next_exhausted iterator t Hc) as Hnext. rewrite forAwait_step in Hrun.
    destruct (iteratorFailure iterator) as [e |]; [| reflexivity].
    rewrite Hnext in Hrun. discriminate.
  - destruct (next_reach_all iterator t c rest Hc)
      as (iterator' & Hnext & Hcommits & Hfail & _).
    rewrite forAwait_step, Hnext in Hrun.
    destruct (loopBody first c (t ++ iteratorQueries 0 iterator))
      as [[[b |] | e] t2] eqn:Hbody.
    + apply loopBody_return_inv in Hbody. subst b. discriminate.
    + apply loopBody_continue_inv in Hbody.
      destruct (IH iterator' t2 t' Hcommits Hrun) as [Hrest Hnone].
      simpl. rewrite Hbody, Hrest, <- Hfail. split; [reflexivity | assumption].
    + discriminate.
Qed.

(** ** The reference commit is read for its author only *)

Lemma loopBody_first_author first first' node t :
  author (commit first) = author (commit first') ->
  loopBody first node t = loopBody first' node t.
Proof.
  intros Ha. unfold loopBody, authorUserLogin. rewrite Ha. reflexivity.
Qed.

Lemma forAwait_first_author first first' :
  author (commit first) = author (commit first') ->
  forall n iterator t, iteratorSize iterator = n ->
                       forAwait first iterator t = forAwait first' iterator t.
Proof.
  intros Ha. induction n as [n IH] using lt_wf_ind. intros iterator t Hn.
  rewrite (forAwait_step first), (forAwait_step first').
  destruct (next iterator t) as [[[[commitNode |] iterator'] | e] t1] eqn:Hnext;
    try reflexivity.
  rewrite (loopBody_first_author first first' commitNode t1 Ha).
  destruct (loopBody first' commitNode t1) as [[[b |] | e] t2]; try reflexivity.
  apply next_decreases in Hnext.
  apply (IH (iteratorSize iterator')); [lia | reflexivity].
Qed.

Lemma refill_resignFirst s query : forall history cursor t,
  refill query cursor (resignFirst s history) t
  = match refill query cursor history t with
    | (Returned (IterValue node, iterator'), t') =>
        (Returned (IterValue (withSignature s node), iterator'), t')
    | other => other
    end.
Proof.
  induction history as [nodes ec | nodes ec more IH | e]; intros cursor t; simpl.
  - destruct nodes; reflexivity.
  - destruct nodes; simpl; [apply IH | reflexivity].
  - reflexivity.
Qed.

(** ** The modification detector *)

(** The first commit is consumed by [iterator.next()] before the loop starts:
    a pull request with a single commit is never regarded as modified,
    whatever that commit's signature. *)
Lemma getIsModified_single_commit octokit query t first cursor :
  commits octokit query = LastPage [first] cursor ->
  getIsModified octokit query t = (Returned false, t ++ [Query query None]).
Proof.
  intros Hc. unfold getIsModified, bind, next, makeGraphqlIterator. simpl.
  rewrite Hc. simpl. rewrite forAwait_step. reflexivity.
Qed.

(** An unsigned or invalidly signed commit after the first, reached through
    commits that pass, makes the detector return [true]. *)
Lemma getIsModified_unsigned_later_commit octokit query t first pre c post :
  historyCommits (commits octokit query) = first :: pre ++ c :: post ->
  forallb (sameSignedAuthor first) pre = true ->
  match signature (commit c) with
  | None => True
  | Some s => isValid s = false
  end ->
  getIsModified octokit query t
  = (Returned true,
     (t ++ queriesToReach query None (S (List.length pre)) (commits octokit query))
     ++ [Log Warning "Commit signature not present or invalid, regarding PR as modified."]).
Proof.
  intros Hc Hpre Hsig.
  rewrite (getIsModified_reach octokit query t first pre c post Hc Hpre);
    rewrite (loopBody_unsigned first c _ Hsig); [reflexivity | discriminate].
Qed.

(** The queries that reach a commit are the first queries of the full
    traversal. *)
Lemma queriesToReach_prefix query k : forall history cursor,
  exists unrequested,
    allQueries query cursor history = queriesToReach query cursor k history ++ unrequested.
Proof.
  intros history. revert k.
  induction history as [nodes ec | nodes ec more IH | e]; intros k cursor; simpl.
  - exists []. reflexivity.
  - destruct (k <? List.length nodes)%nat.
    + eexists. reflexivity.
    + destruct (IH (k - List.length nodes)%nat ec) as (unrequested & ->).
      exists unrequested. reflexivity.
  - exists []. reflexivity.
Qed.

(** C3 (as amended): a commit after the first, reached through commits that
    pass, whose author object or nested user object is absent: when its
    signature is absent or not valid the detector returns [true] without
    reading the author; when its signature is valid the detector does not
    return at all, the read of [author.user.login] raises a [TypeError]. *)
Theorem C3_absent_author_raises_when_signed octokit query t first pre c post :
  historyCommits (commits octokit query) = first :: pre ++ c :: post ->
  forallb (sameSignedAuthor first) pre = true ->
  author (commit c) = None \/ author (commit c) = Some (mkAuthor None) ->
  let t1 := t ++ queriesToReach query None (S (List.length pre)) (commits octokit query) in
  getIsModified octokit query t
  = match signature (commit c) with
    | Some (mkSignature true) =>
        (Thrown (nullPropertyError match author (commit c) with
                                   | None => "user"
                                   | Some _ => "login"
                                   end), t1)
    | _ =>
        (Returned true,
         t1 ++ [Log Warning
                  "Commit signature not present or invalid, regarding PR as modified."])
    end.
Proof.
  intros Hc Hpre Hauthor t1.
  destruct (signature (commit c)) as [[[|]] |] eqn:Hsig.
  - rewrite (getIsModified_reach octokit query t first pre c post Hc Hpre); fold t1.
    + destruct Hauthor as [Ha | Ha]; rewrite Ha.
      * rewrite (loopBody_no_author first c t1 Hsig Ha). reflexivity.
      * rewrite (loopBody_no_user first c t1 Hsig Ha). reflexivity.
    + destruct Hauthor as [Ha | Ha].
      * rewrite (loopBody_no_author first c t1 Hsig Ha). discriminate.
      * rewrite (loopBody_no_user first c t1 Hsig Ha). discriminate.
  - apply (getIsModified_unsigned_later_commit octokit query t first pre c post Hc Hpre).
    rewrite Hsig. reflexivity.
  - apply (getIsModified_unsigned_later_commit octokit query t first pre c post Hc Hpre).
    rewrite Hsig. exact I.
Qed.

(** C8: when the second commit is validly signed and its author login differs
    from the first commit's, the detector returns [true] and has issued only
    the queries that reach the page holding the second commit; these are the
    first queries of the full traversal, the rest of which is not requested. *)
Theorem C8_second_author_differs_short_circuit
    octokit query t first second rest firstLogin secondLogin :
  historyCommits (commits octokit query) = first :: second :: rest ->
  signature (commit first) = Some (mkSignature true) ->
  signature (commit second) = Some (mkSignature true) ->
  author (commit first) = Some (mkAuthor (Some (mkUser firstLogin))) ->
  author (commit second) = Some (mkAuthor (Some (mkUser secondLogin))) ->
  secondLogin <> firstLogin ->
  let reached := queriesToReach query None 1 (commits octokit query) in
  getIsModified octokit query t = (Returned true, t ++ reached) /\
  exists unrequested,
    allQueries query None (commits octokit query) = reached ++ unrequested.
Proof.
  intros Hc _ Hsecond Hfa Hsa Hneq reached. split.
  - rewrite (getIsModified_reach octokit query t first [] second rest Hc eq_refl);
      simpl List.length; fold reached;
      rewrite (loopBody_differs first second _ secondLogin firstLogin Hsecond Hsa Hfa Hneq);
      [reflexivity | discriminate].
  - apply queriesToReach_prefix.
Qed.

(** ** More on the modification detector *)

(** X1: a pull request without commits (every page empty, no request
    failing) is regarded as modified: the detector drains the pages, warns
    that it found no commits and returns [true]. *)
Theorem X1_no_commits_is_modified octokit query t :
  historyCommits (commits octokit query) = [] ->
  historyFailure (commits octokit query) = None ->
  getIsModified octokit query t
  = (Returned true,
     (t ++ allQueries query None (commits octokit query))
     ++ [Log Warning "Could not find PR commits, aborting."]).
Proof.
  intros Hc Hfail. rewrite (getIsModified_no_commits octokit query t Hc), Hfail.
  reflexivity.
Qed.

(** X2: when every commit after the first is validly signed by the author of
    the first and no request fails, the detector returns [false], after a
    traversal of all pages and without a log line. *)
Theorem X2_all_later_commits_pass_is_unmodified octokit query t first rest :
  historyCommits (commits octokit query) = first :: rest ->
  forallb (sameSignedAuthor first) rest = true ->
  historyFailure (commits octokit query) = None ->
  getIsModified octokit query t
  = (Returned false, t ++ allQueries query None (commits octokit query)).
Proof.
  intros Hc Hpass Hfail.
  rewrite (getIsModified_exhausts octokit query t first rest Hc Hpass), Hfail.
  reflexivity.
Qed.

(** X3: the detector returns [false] only if the pull request has a first
    commit, no request failed, and every commit after the first carries a
    valid signature and the author login of the first; it has then traversed
    all pages. *)
Theorem X3_unmodified_only_if_all_later_commits_pass octokit query t t' :
  getIsModified octokit query t = (Returned false, t') ->
  exists first rest,
    historyCommits (commits octokit query) = first :: rest /\
    Forall (fun node =>
              signature (commit node) = Some (mkSignature true) /\
              exists l, author (commit node) = Some (mkAuthor (Some (mkUser l))) /\
                        author (commit first) = Some (mkAuthor (Some (mkUser l)))) rest /\
    historyFailure (commits octokit query) = None /\
    t' = t ++ allQueries query None (commits octokit query).
Proof.
  intros Hrun.
  destruct (historyCommits (commits octokit query)) as [| first rest] eqn:Hc.
  - rewrite (getIsModified_no_commits octokit query t Hc) in Hrun.
    destruct (historyFailure (commits octokit query)); discriminate.
  - assert (Hinv : forallb (sameSignedAuthor first) rest = true /\
                   historyFailure (commits octokit query) = None).
    { unfold getIsModified, bind in Hrun.
      destruct (next_reach_all (makeGraphqlIterator octokit query) t first rest Hc)
        as (iterator' & Hnext & Hcommits & Hfail & _).
      rewrite Hnext in Hrun.
      destruct (forAwait_false_inv first rest iterator' _ t' Hcommits Hrun) as [Hp Hn].
      split; [assumption |]. rewrite Hfail in Hn. exact Hn. }
    destruct Hinv as [Hpass Hnone].
    rewrite (getIsModified_exhausts octokit query t first rest Hc Hpass), Hnone in Hrun.
    inversion Hrun; subst.
    exists first, rest. split; [reflexivity | split; [| split; [exact Hnone | reflexivity]]].
    apply Forall_forall. intros node Hin.
    rewrite forallb_forall in Hpass. apply sameSignedAuthor_spec, Hpass, Hin.
Qed.

(** X4: a commit after the first that has no signature, or a signature that
    is not valid, makes the detector return [true] with a warning as soon as
    it is reached through commits that pass; no further page is requested. *)
Theorem X4_unsigned_later_commit_is_modified octokit query t first pre c post :
  historyCommits (commits octokit query) = first :: pre ++ c :: post ->
  forallb (sameSignedAuthor first) pre = true ->
  signature (commit c) = None \/ signature (commit c) = Some (mkSignature false) ->
  getIsModified octokit query t
  = (Returned true,
     (t ++ queriesToReach query None (S (List.length pre)) (commits octokit query))
     ++ [Log Warning "Commit signature not present or invalid, regarding PR as modified."]).
Proof.
  intros Hc Hpre Hsig.
  apply (getIsModified_unsigned_later_commit octokit query t first pre c post Hc Hpre).
  destruct Hsig as [-> | ->]; [exact I | reflexivity].
Qed.

(** X5: a validly signed commit after the first whose author login differs
    from the first commit's makes the detector return [true] as soon as it is
    reached through commits that pass, without a log line and without
    requesting a further page. *)
Theorem X5_other_author_later_commit_is_modified
    octokit query t first pre c post firstLogin commitLogin :
  historyCommits (commits octokit query) = first :: pre ++ c :: post ->
  forallb (sameSignedAuthor first) pre = true ->
  signature (commit c) = Some (mkSignature true) ->
  author (commit c) = Some (mkAuthor (Some (mkUser commitLogin))) ->
  author (commit first) = Some (mkAuthor (Some (mkUser firstLogin))) ->
  commitLogin <> firstLogin ->
  getIsModified octokit query t
  = (Returned true,
     t ++ queriesToReach query None (S (List.length pre)) (commits octokit query)).
Proof.
  intros Hc Hpre Hsig Ha Hfa Hneq.
  rewrite (getIsModified_reach octokit query t first pre c post Hc Hpre);
    rewrite (loopBody_differs first c _ commitLogin firstLogin Hsig Ha Hfa Hneq);
    [reflexivity | discriminate].
Qed.

(** X6: an error of the commit traversal is not swallowed: when a request
    fails after commits that all pass (or before any commit), the detector
    raises that error, having issued the queries up to the failing one, and
    logs nothing. *)
Theorem X6_traversal_error_propagates octokit query t e :
  historyFailure (commits octokit query) = Some e ->
  match historyCommits (commits octokit query) with
  | [] => True
  | first :: rest => forallb (sameSignedAuthor first) rest = true
  end ->
  getIsModified octokit query t
  = (Thrown e, t ++ allQueries query None (commits octokit query)).
Proof.
  intros Hfail Hpass.
  destruct (historyCommits (commits octokit query)) as [| first rest] eqn:Hc.
  - rewrite (getIsModified_no_commits octokit query t Hc), Hfail. reflexivity.
  - rewrite (getIsModified_exhausts octokit query t first rest Hc Hpass), Hfail.
    reflexivity.
Qed.

(** X7: the reference login is read from the first commit at each
    comparison: when the first commit has no author object, or no user in it,
    and the second commit is validly signed with an author login, the detector
    raises the [TypeError] of that read instead of returning. *)
Theorem X7_first_commit_without_author_raises
    octokit query t first second rest secondLogin :
  historyCommits (commits octokit query) = first :: second :: rest ->
  signature (commit second) = Some (mkSignature true) ->
  author (commit second) = Some (mkAuthor (Some (mkUser secondLogin))) ->
  author (commit first) = None \/ author (commit first) = Some (mkAuthor None) ->
  getIsModified octokit query t
  = (Thrown (nullPropertyError match author (commit first) with
                               | None => "user"
                               | Some _ => "login"
                               end),
     t ++ queriesToReach query None 1 (commits octokit query)).
Proof.
  intros Hc Hsig Ha Hfirst.
  assert (Hbody : forall t1,
             loopBody first second t1
             = (Thrown (nullPropertyError match author (commit first) with
                                          | None => "user"
                                          | Some _ => "login"
                                          end), t1)).
  { intros t1. unfold loopBody, authorUserLogin. rewrite Hsig, Ha.
    destruct Hfirst as [-> | ->]; reflexivity. }
  rewrite (getIsModified_reach octokit query t first [] second rest Hc eq_refl);
    simpl List.length; rewrite Hbody; [reflexivity | discriminate].
Qed.

(** X8: the detector only reads: whatever the history, the events it adds
    are commit queries and log lines, so it sends no mutation, waits for
    nothing and reads no configuration. *)
Theorem X8_detector_only_queries_and_logs octokit query t :
  exists added,
    snd (getIsModified octokit query t) = t ++ added /\
    Forall (fun ev => match ev with
                      | Query _ _ | Log _ _ => True
                      | _ => False
                      end) added /\
    mutationsOf (snd (getIsModified octokit query t)) = mutationsOf t /\
    delaysOf (snd (getIsModified octokit query t)) = delaysOf t.
Proof.
  destruct (getIsModified_trace octokit query t) as (added & Hrun & Hadded).
  exists added. rewrite Hrun. split; [reflexivity |].
  assert (Hall : Forall (fun ev => match ev with
                                   | Query _ _ | Log _ _ => True
                                   | _ => False
                                   end) added).
  { apply Forall_forall. intros ev Hin. rewrite forallb_forall in Hadded.
    specialize (Hadded ev Hin). destruct ev; try discriminate; exact I. }
  split; [exact Hall | split].
  - rewrite mutationsOf_app, (fetchOrLog_no_mutation added Hadded). apply app_nil_r.
  - rewrite delaysOf_app.
    replace (delaysOf added) with (@nil Z); [apply app_nil_r |].
    clear Hrun Hadded. induction Hall as [| ev added Hev _ IH]; [reflexivity |].
    destruct ev; try contradiction; simpl; exact IH.
Qed.

(** X9: the signature of the first commit is never read: replacing it by any
    other signature, or by none, changes neither the result of the detector
    nor its trace. *)
Theorem X9_first_commit_signature_is_never_read octokit query t s :
  getIsModified (resigned s octokit) query t = getIsModified octokit query t.
Proof.
  unfold getIsModified, bind, next, makeGraphqlIterator, resigned. simpl.
  rewrite refill_resignFirst.
  destruct (refill query None (commits octokit query) t)
    as [[[[node |] iterator'] | e] t1]; try reflexivity.
  apply (forAwait_first_author (withSignature s node) node eq_refl
           (iteratorSize iterator') iterator' t1 eq_refl).
Qed.

(** ** More on the retry engine *)




Lemma shouldRetry_false_log error retryCount maximumRetries t t' :
  shouldRetry error retryCount maximumRetries t = (Returned false, t') ->
  t' = t \/ exists text, t' = t ++ [Log Info text].
Proof.
  unfold shouldRetry.
  destruct (includes (message error) "Base branch was modified."); simpl.
  - destruct (retryCount >? maximumRetries); simpl.
    + unfold bind, logInfo, emit, ret. simpl. intros H; inversion H; subst. eauto.
    + unfold ret. discriminate.
  - unfold ret. intros H; inversion H; subst. left. reflexivity.
Qed.

Lemma waits_S count k :
  waits count (S k)
  = (count ^ EXPONENTIAL_BACKOFF * MINIMUM_WAIT_TIME) :: waits (count + 1) k.
Proof.
  unfold waits. cbn [seq map]. rewrite Z.add_0_r. f_equal.
  rewrite <- seq_shift, map_map. apply map_ext. intros i. do 2 f_equal. lia.
Qed.

Lemma mergeEvents_no_query added :
  forallb isMergeEvent added = true -> queriesOf added = [].
Proof.
  induction added as [| ev added IH]; simpl; [reflexivity |].
  intros H. apply andb_prop in H. destruct H as [Hev Hrest].
  destruct ev; try discriminate; simpl; auto.
Qed.

Lemma queriesOf_app t1 t2 : queriesOf (t1 ++ t2) = queriesOf t1 ++ queriesOf t2.
Proof. unfold queriesOf. apply flat_map_app. Qed.

(** Any run of the retry loop: the retries it makes, bounded by the counters,
    and the waits between them. *)
Lemma mergeWithRetry_schedule octokit : forall n details t,
  Z.to_nat (maximumRetries details + 1 - retryCount details) = n ->
  exists k added,
    (k <= n)%nat /\
    mergeWithRetry octokit details t = (Returned tt, t ++ added) /\
    List.length (mutationsOf added) = S k /\
    delaysOf added = waits (retryCount details) k /\
    forallb isMergeEvent added = true.
Proof.
  induction n as [n IH] using lt_wf_ind. intros details t Hn.
  rewrite mergeWithRetry_step, merge_run. cbv zeta.
  set (sent := [ParseInputMergeMethod;
                Mutate (chosenMutation details) (chosenVariables details)]).
  destruct (mutationError octokit _ _ _) as [error |].
  - destruct (shouldRetry error (retryCount details) (maximumRetries details) (t ++ sent))
      as [[[|] | e] t2] eqn:Hretry.
    + apply shouldRetry_true in Hretry. destruct Hretry as (_ & Hle & ->).
      cbv zeta.
      match goal with |- context [(t ++ sent) ++ ?w] => set (waited := w) end.
      destruct (IH (Z.to_nat (maximumRetries (nextAttempt details) + 1
                              - retryCount (nextAttempt details)))
                   ltac:(simpl; lia) (nextAttempt details) ((t ++ sent) ++ waited) eq_refl)
        as (k & added & Hk & Hrun & Hmut & Hdel & Hev).
      rewrite Hrun.
      exists (S k), (sent ++ waited ++ added). repeat split.
      * simpl in Hk. lia.
      * rewrite <- !app_assoc. reflexivity.
      * rewrite !mutationsOf_app. simpl. rewrite Hmut. reflexivity.
      * rewrite !delaysOf_app, Hdel, waits_S. reflexivity.
      * rewrite !forallb_app, Hev. reflexivity.
    + apply shouldRetry_false_log in Hretry.
      match goal with |- context [t2 ++ ?w] => set (reported := w) end.
      exists 0%nat.
      destruct Hretry as [-> | (text & ->)].
      * exists (sent ++ reported). repeat split; try reflexivity; try lia.
        rewrite <- !app_assoc. reflexivity.
      * exists (sent ++ [Log Info text] ++ reported).
        repeat split; try reflexivity; try lia.
        rewrite <- !app_assoc. reflexivity.
    + exfalso. eapply shouldRetry_returns; eassumption.
  - exists 0%nat, sent. repeat split; try reflexivity; lia.
Qed.

Lemma waits_sorted k : forall count,
  0 <= count -> 0 <= MINIMUM_WAIT_TIME -> Sorted Z.le (waits count k).
Proof.
  induction k as [| k IH]; intros count Hcount Hwait; [constructor |].
  rewrite waits_S. constructor.
  - apply IH; lia.
  - destruct k as [| k]; [constructor |].
    rewrite waits_S. constructor.
    apply Z.mul_le_mono_nonneg_r; [assumption |].
    apply Z.pow_le_mono_l. lia.
Qed.

Lemma mergeWithRetry_review_edge octokit edge1 edge2 : forall n details t,
  Z.to_nat (maximumRetries details + 1 - retryCount details) = n ->
  mergeWithRetry octokit (withReviewEdge (Some edge1) details) t
  = mergeWithRetry octokit (withReviewEdge (Some edge2) details) t.
Proof.
  induction n as [n IH] using lt_wf_ind. intros details t Hn.
  rewrite (mergeWithRetry_step octokit (withReviewEdge (Some edge1) details)),
          (mergeWithRetry_step octokit (withReviewEdge (Some edge2) details)),
          !merge_run.
  cbv zeta. unfold chosenMutation, chosenVariables. simpl.
  destruct (mutationError octokit _ _ _) as [error |]; [| reflexivity].
  destruct (shouldRetry error (retryCount details) (maximumRetries details) _)
    as [[[|] | e] t2] eqn:Hretry; try reflexivity.
  apply shouldRetry_true in Hretry. destruct Hretry as (_ & Hle & _).
  apply (IH (Z.to_nat (maximumRetries (nextAttempt details) + 1
                       - retryCount (nextAttempt details)))
            ltac:(simpl; lia) (nextAttempt details) _ eq_refl).
Qed.


(** X11: when the executor rejects the first [k] attempts with the retryable
    message, [k] within the retries that the counters leave, and accepts the
    next one, [mergeWithRetry] sends [k + 1] mutations with [k] waits in
    between and returns after the accepted one, without a line that reports a
    failure. *)
Theorem X11_retries_until_accepted octokit : forall k details t,
  (k <= Z.to_nat (maximumRetries details + 1 - retryCount details))%nat ->
  (forall i, (i < k)%nat ->
     exists e,
       mutationError octokit (t ++ retriedRun details i ++ [ParseInputMergeMethod])
                     (chosenMutation details) (chosenVariables details) = Some e /\
       includes (message e) "Base branch was modified." = true) ->
  mutationError octokit (t ++ retriedRun details k ++ [ParseInputMergeMethod])
                (chosenMutation details) (chosenVariables details) = None ->
  mergeWithRetry octokit details t
  = (Returned tt,
     t ++ retriedRun details k
       ++ [ParseInputMergeMethod;
           Mutate (chosenMutation details) (chosenVariables details)]).
Proof.
  induction k as [| k IH]; intros details t Hk Hrejected Haccepted;
    rewrite mergeWithRetry_step, merge_run; cbv zeta.
  - simpl in Haccepted. rewrite Haccepted. reflexivity.
  - destruct (Hrejected 0%nat ltac:(lia)) as (e & He & Hinc). simpl in He.
    rewrite He, (shouldRetry_again e _ _ _ Hinc) by lia. cbv zeta.
    set (first := [ParseInputMergeMethod;
                   Mutate (chosenMutation details) (chosenVariables details);
                   Log Info ("Retrying in "
                             ++ toString (retryCount details ^ EXPONENTIAL_BACKOFF
                                          * MINIMUM_WAIT_TIME) ++ "...")%string;
                   Delay (retryCount details ^ EXPONENTIAL_BACKOFF * MINIMUM_WAIT_TIME)]).
    assert (Hshift : forall i rest,
               t ++ retriedRun details (S i) ++ rest
               = (t ++ first) ++ retriedRun (nextAttempt details) i ++ rest).
    { intros i rest. cbn [retriedRun]. cbv zeta. fold first.
      rewrite <- !app_assoc. reflexivity. }
    replace ((t ++ [ParseInputMergeMethod;
                    Mutate (chosenMutation details) (chosenVariables details)])
             ++ [Log Info ("Retrying in "
                           ++ toString (retryCount details ^ EXPONENTIAL_BACKOFF
                                        * MINIMUM_WAIT_TIME) ++ "...")%string;
                 Delay (retryCount details ^ EXPONENTIAL_BACKOFF * MINIMUM_WAIT_TIME)])
      with (t ++ first) by (unfold first; rewrite <- app_assoc; reflexivity).
    rewrite (IH (nextAttempt details) (t ++ first)).
    + rewrite Hshift. reflexivity.
    + simpl. lia.
    + intros i Hi. destruct (Hrejected (S i) ltac:(lia)) as (e' & He' & Hinc').
      rewrite Hshift in He'. exists e'. split; assumption.
    + rewrite Hshift in Haccepted. exact Haccepted.
Qed.

(** X12: an error whose message does not contain the retryable text ends the
    run at once, whatever the counters: one mutation, no wait, no line about
    exhausted retries, then the two lines that report the error. *)
Theorem X12_other_error_is_not_retried octokit details t e :
  mutationError octokit (t ++ [ParseInputMergeMethod])
                (chosenMutation details) (chosenVariables details) = Some e ->
  includes (message e) "Base branch was modified." = false ->
  mergeWithRetry octokit details t
  = (Returned tt,
     t ++ [ParseInputMergeMethod;
           Mutate (chosenMutation details) (chosenVariables details);
           Log Info ("An error ocurred while merging the Pull Request. This is usually "
                     ++ "caused by the base branch being out of sync with the target "
                     ++ "branch. In this case, the base branch must be rebased. Some "
                     ++ "tools, such as Dependabot, do that automatically.")%string;
           Log Debug ("Original error: " ++ errorToString e ++ ".")%string]).
Proof.
  intros He Hinc. rewrite mergeWithRetry_step, merge_run. cbv zeta. rewrite He.
  unfold shouldRetry. rewrite Hinc. simpl. unfold ret.
  rewrite <- app_assoc. reflexivity.
Qed.

(** X13: whatever the executor answers, a run of [mergeWithRetry] returns
    after [k + 1] mutations for some [k] that does not exceed
    [maximumRetries + 1 - retryCount] (none when that is negative), and the
    waits between them are [(retryCount + i) ^ E * W] for [i = 0 .. k - 1]. *)
Theorem X13_retries_bounded_and_scheduled octokit details t :
  exists k added,
    (k <= Z.to_nat (maximumRetries details + 1 - retryCount details))%nat /\
    mergeWithRetry octokit details t = (Returned tt, t ++ added) /\
    List.length (mutationsOf added) = S k /\
    delaysOf added
    = map (fun i => (retryCount details + Z.of_nat i) ^ EXPONENTIAL_BACKOFF
                    * MINIMUM_WAIT_TIME) (seq 0 k).
Proof.
  destruct (mergeWithRetry_schedule octokit _ details t eq_refl)
    as (k & added & Hk & Hrun & Hmut & Hdel & _).
  exists k, added. repeat split; assumption.
Qed.

(** X14: with a retry count that is not negative and a minimum wait that is
    not negative, the waits of a run never shrink from one retry to the
    next. *)
Theorem X14_waits_never_shrink octokit details t :
  0 <= EXPONENTIAL_BACKOFF ->
  0 <= MINIMUM_WAIT_TIME ->
  0 <= retryCount details ->
  exists added,
    snd (mergeWithRetry octokit details t) = t ++ added /\
    Sorted Z.le (delaysOf added).
Proof.
  intros _ Hwait Hcount.
  destruct (mergeWithRetry_schedule octokit _ details t eq_refl)
    as (k & added & _ & Hrun & _ & Hdel & _).
  exists added. rewrite Hrun, Hdel. split; [reflexivity |].
  apply waits_sorted; assumption.
Qed.

(** ** The skip reason, precondition by precondition *)

Ltac string_cases :=
  repeat match goal with
         | |- context [String.eqb ?a ?b] => destruct (String.eqb_spec a b)
         end; simpl; try congruence.

Lemma skip_not_mergeable information :
  mergeableState information <> "MERGEABLE" ->
  skipReason information
  = Some ("Pull request is not in a mergeable state: "
          ++ mergeableState information ++ ".")%string.
Proof. intros H. unfold skipReason. string_cases. Qed.

Lemma skip_merged information :
  mergeableState information = "MERGEABLE" ->
  merged information = true ->
  skipReason information = Some "Pull request is already merged.".
Proof. intros H1 H2. unfold skipReason. rewrite H1, H2. reflexivity. Qed.

Lemma skip_not_clean information status :
  mergeableState information = "MERGEABLE" ->
  merged information = false ->
  mergeStateStatus information = Some status ->
  status <> "CLEAN" ->
  skipReason information
  = Some ("Pull request cannot be merged cleanly. Current state: "
          ++ status ++ ".")%string.
Proof.
  intros H1 H2 H3 H4. unfold skipReason. rewrite H1, H2, H3. simpl.
  destruct (String.eqb_spec status "CLEAN"); [contradiction | reflexivity].
Qed.

Lemma skip_not_open information :
  mergeableState information = "MERGEABLE" ->
  merged information = false ->
  mergeStateStatus information = None \/ mergeStateStatus information = Some "CLEAN" ->
  pullRequestState information <> "OPEN" ->
  skipReason information
  = Some ("Pull request is not open: " ++ pullRequestState information ++ ".")%string.
Proof.
  intros H1 H2 H3 H4. unfold skipReason. rewrite H1, H2. simpl.
  destruct H3 as [-> | ->]; simpl;
    destruct (String.eqb_spec (pullRequestState information) "OPEN");
    try contradiction; reflexivity.
Qed.

Lemma skip_preset information :
  mergeableState information = "MERGEABLE" ->
  merged information = false ->
  mergeStateStatus information = None \/ mergeStateStatus information = Some "CLEAN" ->
  pullRequestState information = "OPEN" ->
  checkPullRequestTitleForMergePreset (pullRequestTitle information) = false ->
  skipReason information = Some "Pull request version bump is not allowed by PRESET.".
Proof.
  intros H1 H2 H3 H4 H5. unfold skipReason. rewrite H1, H2, H4, H5. simpl.
  destruct H3 as [-> | ->]; reflexivity.
Qed.

Lemma skip_none information :
  mergeableState information = "MERGEABLE" ->
  merged information = false ->
  mergeStateStatus information = None \/ mergeStateStatus information = Some "CLEAN" ->
  pullRequestState information = "OPEN" ->
  checkPullRequestTitleForMergePreset (pullRequestTitle information) = true ->
  skipReason information = None.
Proof.
  intros H1 H2 H3 H4 H5. unfold skipReason. rewrite H1, H2, H4, H5. simpl.
  destruct H3 as [-> | ->]; reflexivity.
Qed.

(** The first five preconditions either all hold or yield a skip reason. *)
Lemma skipReason_none_inv information :
  skipReason information = None ->
  mergeableState information = "MERGEABLE" /\
  merged information = false /\
  (mergeStateStatus information = None \/ mergeStateStatus information = Some "CLEAN") /\
  pullRequestState information = "OPEN" /\
  checkPullRequestTitleForMergePreset (pullRequestTitle information) = true.
Proof.
  unfold skipReason.
  destruct (String.eqb_spec (mergeableState information) "MERGEABLE"); simpl;
    [| discriminate].
  destruct (merged information); [discriminate |].
  destruct (mergeStateStatus information) as [status |].
  - destruct (String.eqb_spec status "CLEAN"); simpl; [| discriminate]. subst status.
    destruct (String.eqb_spec (pullRequestState information) "OPEN"); simpl;
      [| discriminate].
    destruct (checkPullRequestTitleForMergePreset (pullRequestTitle information));
      [| discriminate].
    intros _. repeat split; auto.
  - destruct (String.eqb_spec (pullRequestState information) "OPEN"); simpl;
      [| discriminate].
    destruct (checkPullRequestTitleForMergePreset (pullRequestTitle information));
      [| discriminate].
    intros _. repeat split; auto.
Qed.

(** ** The mutations of a whole run *)

Lemma mutationsOf_attemptsOf t : mutationsOf (attemptsOf t) = mutationsOf t.
Proof.
  induction t as [| ev t IH]; [reflexivity |].
  destruct ev; simpl; try assumption. f_equal. assumption.
Qed.

Lemma mutationsOf_attempts details n :
  mutationsOf (attempts details n)
  = repeat (chosenMutation details, chosenVariables details) n.
Proof.
  unfold attempts. induction n as [| n IH]; [reflexivity |].
  simpl. f_equal. exact IH.
Qed.

Lemma mergeWithRetry_mutations octokit details t :
  exists n,
    fst (mergeWithRetry octokit details t) = Returned tt /\
    mutationsOf (snd (mergeWithRetry octokit details t))
    = mutationsOf t ++ repeat (chosenMutation details, chosenVariables details) (S n).
Proof.
  destruct (mergeWithRetry_run octokit _ details t eq_refl)
    as (added & k & Hrun & Hatt & _).
  exists k. rewrite Hrun. split; [reflexivity |].
  cbn [snd]. rewrite mutationsOf_app, <- (mutationsOf_attemptsOf added), Hatt.
  rewrite mutationsOf_attempts. reflexivity.
Qed.

Lemma getIsModified_mutations octokit query t :
  mutationsOf (snd (getIsModified octokit query t)) = mutationsOf t.
Proof.
  destruct (getIsModified_trace octokit query t) as (added & -> & Hadded).
  rewrite mutationsOf_app, (fetchOrLog_no_mutation added Hadded), app_nil_r.
  reflexivity.
Qed.

Lemma tryMerge_mutations inputs octokit maximumRetries information t :
  exists n,
    mutationsOf (snd (tryMerge inputs octokit maximumRetries information t))
    = mutationsOf t
      ++ repeat (chosenMutation (detailsOf maximumRetries information),
                 chosenVariables (detailsOf maximumRetries information)) n.
Proof.
  rewrite tryMerge_run. cbv zeta.
  set (t0 := t ++ [GetInput "GITHUB_LOGIN"; GetInput "ENABLED_FOR_MANUAL_CHANGES"]).
  assert (H0 : mutationsOf t0 = mutationsOf t).
  { unfold t0. rewrite mutationsOf_app. simpl. apply app_nil_r. }
  destruct (skipReason information) as [text |].
  - exists 0%nat. cbn [snd repeat]. rewrite mutationsOf_app, H0. reflexivity.
  - destruct (String.eqb (ENABLED_FOR_MANUAL_CHANGES inputs) "true").
    + destruct (mergeWithRetry_mutations octokit (detailsOf maximumRetries information) t0)
        as (n & _ & Hm).
      exists (S n). rewrite Hm, H0. reflexivity.
    + pose proof (getIsModified_mutations octokit (commitsQueryOf information) t0) as Hg.
      destruct (getIsModified octokit (commitsQueryOf information) t0) as [[[|] | e] t1];
        cbn [snd] in Hg.
      * exists 0%nat. cbn [snd repeat]. rewrite mutationsOf_app, Hg, H0. reflexivity.
      * destruct (mergeWithRetry_mutations octokit (detailsOf maximumRetries information) t1)
          as (n & _ & Hm).
        exists (S n). rewrite Hm, Hg, H0. reflexivity.
      * exists 0%nat. cbn [snd repeat]. rewrite Hg, H0, app_nil_r. reflexivity.
Qed.

(** ** The entry point *)


(** C4: against an executor that rejects every mutation with the retryable
    message, [mergeWithRetry] started at retry count 1 with [maximumRetries = 2]
    sends the mutation three times, waits [1 ^ E * W] and then [2 ^ E * W]
    in between, and gives up after the third; for any bound
    [maximumRetries >= 0] it sends [maximumRetries + 1] mutations, with the
    waits [k ^ E * W] for [k = 1 .. maximumRetries]. *)
Theorem C4_retries_then_gives_up
    octokit commitHeadline pullRequestId reviewEdge maximumRetries :
  alwaysRejected octokit ->
  0 <= maximumRetries ->
  let details := mkDetails commitHeadline pullRequestId reviewEdge in
  let sent := Mutate (chosenMutation (details 2 1)) (mkVariables commitHeadline pullRequestId) in
  let wait k := k ^ EXPONENTIAL_BACKOFF * MINIMUM_WAIT_TIME in
  (exists e,
     mergeWithRetry octokit (details 2 1) []
     = (Returned tt,
        [ParseInputMergeMethod; sent;
         Log Info ("Retrying in " ++ toString (wait 1) ++ "...")%string; Delay (wait 1);
         ParseInputMergeMethod; sent;
         Log Info ("Retrying in " ++ toString (wait 2) ++ "...")%string; Delay (wait 2);
         ParseInputMergeMethod; sent;
         Log Info "Unable to merge after 3 attempts. Retries exhausted.";
         Log Info ("An error ocurred while merging the Pull Request. This is usually "
                   ++ "caused by the base branch being out of sync with the target "
                   ++ "branch. In this case, the base branch must be rebased. Some "
                   ++ "tools, such as Dependabot, do that automatically.")%string;
         Log Debug ("Original error: " ++ errorToString e ++ ".")%string])) /\
  (let trace := snd (mergeWithRetry octokit (details maximumRetries 1) []) in
   List.length (mutationsOf trace) = Z.to_nat (maximumRetries + 1) /\
   delaysOf trace = map (fun k => wait (Z.of_nat k)) (seq 1 (Z.to_nat maximumRetries))).
Proof.
  intros Hrejected Hbound details sent wait. split.
  - destruct (mergeWithRetry_exhausts octokit Hrejected 2%nat (details 2 1) [] eq_refl)
      as (e & _ & Hrun).
    exists e. rewrite Hrun. reflexivity.
  - destruct (mergeWithRetry_exhausts octokit Hrejected (Z.to_nat maximumRetries)
                (details maximumRetries 1) [])
      as (e & _ & Hrun).
    { simpl. f_equal. lia. }
    rewrite Hrun. cbn [snd app]. split.
    + rewrite exhaustedRun_mutations. lia.
    + rewrite exhaustedRun_delays. rewrite <- seq_shift, map_map.
      apply map_ext. intros i. unfold wait. simpl retryCount. do 2 f_equal. lia.
Qed.

(** C5: when one of the six ordered preconditions fails, [tryMerge] sends no
    mutation; the first failing precondition decides the outcome: the run is
    the two configuration reads and that precondition's log line, hence without
    any commit query when one of the first five fails, and the detector's own
    trace followed by the log line when only the sixth fails. *)
Theorem C5_failed_precondition_sends_no_mutation
    inputs octokit maximumRetries information t :
  let t0 := t ++ [GetInput "GITHUB_LOGIN"; GetInput "ENABLED_FOR_MANUAL_CHANGES"] in
  let run := tryMerge inputs octokit maximumRetries information t in
  let clean := mergeStateStatus information = None
               \/ mergeStateStatus information = Some "CLEAN" in
  mergeableState information <> "MERGEABLE"
  \/ merged information = true
  \/ (exists status, mergeStateStatus information = Some status /\ status <> "CLEAN")
  \/ pullRequestState information <> "OPEN"
  \/ checkPullRequestTitleForMergePreset (pullRequestTitle information) = false
  \/ (ENABLED_FOR_MANUAL_CHANGES inputs <> "true" /\
      fst (getIsModified octokit (commitsQueryOf information) t0) = Returned true) ->
  mutationsOf (snd run) = mutationsOf t /\
  (mergeableState information <> "MERGEABLE" ->
   run = (Returned tt,
          t0 ++ [Log Info ("Pull request is not in a mergeable state: "
                           ++ mergeableState information ++ ".")%string])) /\
  (mergeableState information = "MERGEABLE" -> merged information = true ->
   run = (Returned tt, t0 ++ [Log Info "Pull request is already merged."])) /\
  (mergeableState information = "MERGEABLE" -> merged information = false ->
   forall status, mergeStateStatus information = Some status -> status <> "CLEAN" ->
   run = (Returned tt,
          t0 ++ [Log Info ("Pull request cannot be merged cleanly. Current state: "
                           ++ status ++ ".")%string])) /\
  (mergeableState information = "MERGEABLE" -> merged information = false -> clean ->
   pullRequestState information <> "OPEN" ->
   run = (Returned tt,
          t0 ++ [Log Info ("Pull request is not open: "
                           ++ pullRequestState information ++ ".")%string])) /\
  (mergeableState information = "MERGEABLE" -> merged information = false -> clean ->
   pullRequestState information = "OPEN" ->
   checkPullRequestTitleForMergePreset (pullRequestTitle information) = false ->
   run = (Returned tt,
          t0 ++ [Log Info "Pull request version bump is not allowed by PRESET."])) /\
  (mergeableState information = "MERGEABLE" -> merged information = false -> clean ->
   pullRequestState information = "OPEN" ->
   checkPullRequestTitleForMergePreset (pullRequestTitle information) = true ->
   ENABLED_FOR_MANUAL_CHANGES inputs <> "true" ->
   forall t1,
     getIsModified octokit (commitsQueryOf information) t0 = (Returned true, t1) ->
     run = (Returned tt,
            t1 ++ [Log Info ("Pull request changes were not made by "
                             ++ GITHUB_LOGIN inputs ++ ".")%string])).
Proof.
  intros t0 run clean Hfails.
  assert (Hskip : forall text, skipReason information = Some text ->
                               run = (Returned tt, t0 ++ [Log Info text])).
  { intros text Htext. unfold run. rewrite tryMerge_run, Htext. reflexivity. }
  split; [| repeat split].
  - unfold run. rewrite tryMerge_run. fold t0. cbv zeta.
    assert (H0 : mutationsOf t0 = mutationsOf t).
    { unfold t0. rewrite mutationsOf_app. simpl. apply app_nil_r. }
    destruct (skipReason information) as [text |] eqn:Hreason.
    + cbn [snd]. rewrite mutationsOf_app, H0. simpl. apply app_nil_r.
    + apply skipReason_none_inv in Hreason.
      destruct Hreason as (H1 & H2 & H3 & H4 & H5).
      destruct Hfails as [H | [H | [(status & Hs & Hne) | [H | [H | (Hmanual & Hmod)]]]]];
        try congruence.
      * destruct H3 as [H3 | H3]; congruence.
      * destruct (String.eqb_spec (ENABLED_FOR_MANUAL_CHANGES inputs) "true");
          [contradiction |].
        pose proof (getIsModified_mutations octokit (commitsQueryOf information) t0) as Hg.
        destruct (getIsModified octokit (commitsQueryOf information) t0)
          as [[[|] | e] t1]; simpl in Hmod; try discriminate.
        cbn [snd] in *. rewrite mutationsOf_app, Hg, H0. simpl. apply app_nil_r.
  - intros H. apply Hskip, skip_not_mergeable, H.
  - intros H1 H2. apply Hskip, skip_merged; assumption.
  - intros H1 H2 status H3 H4. apply Hskip, skip_not_clean; assumption.
  - intros H1 H2 H3 H4. apply Hskip, skip_not_open; assumption.
  - intros H1 H2 H3 H4 H5. apply Hskip, skip_preset; assumption.
  - intros H1 H2 H3 H4 H5 Hmanual t1 Hmod. unfold run.
    rewrite tryMerge_run, (skip_none information H1 H2 H3 H4 H5). fold t0. cbv zeta.
    destruct (String.eqb_spec (ENABLED_FOR_MANUAL_CHANGES inputs) "true");
      [contradiction |].
    rewrite Hmod. reflexivity.
Qed.

(** C6: a merge-state-status that is present and not [CLEAN] skips the
    merge (no mutation is sent; once the pull request is mergeable and not
    merged, the run is exactly that skip message), while an absent status
    passes: [tryMerge] then behaves as it does for [CLEAN] and goes on to the
    remaining checks, the next of which is the open-state check. *)
Theorem C6_merge_state_status inputs octokit maximumRetries information t :
  let t0 := t ++ [GetInput "GITHUB_LOGIN"; GetInput "ENABLED_FOR_MANUAL_CHANGES"] in
  let run status :=
    tryMerge inputs octokit maximumRetries (withMergeStateStatus status information) t in
  (forall status, status <> "CLEAN" ->
     mutationsOf (snd (run (Some status))) = mutationsOf t /\
     (mergeableState information = "MERGEABLE" -> merged information = false ->
      run (Some status)
      = (Returned tt,
         t0 ++ [Log Info ("Pull request cannot be merged cleanly. Current state: "
                          ++ status ++ ".")%string]))) /\
  run None = run (Some "CLEAN") /\
  (mergeableState information = "MERGEABLE" -> merged information = false ->
   pullRequestState information <> "OPEN" ->
   run None
   = (Returned tt,
      t0 ++ [Log Info ("Pull request is not open: "
                       ++ pullRequestState information ++ ".")%string])).
Proof.
  intros t0 run. split; [| split].
  - intros status Hstatus. split.
    + unfold run. rewrite tryMerge_run. cbv zeta. fold t0.
      assert (Hreason : exists text,
                 skipReason (withMergeStateStatus (Some status) information) = Some text).
      { unfold skipReason, withMergeStateStatus. simpl.
        destruct (negb (String.eqb (mergeableState information) "MERGEABLE")); eauto.
        destruct (merged information); eauto.
        destruct (String.eqb_spec status "CLEAN"); [contradiction | simpl; eauto]. }
      destruct Hreason as (text & ->). cbn [snd].
      unfold t0. rewrite !mutationsOf_app. simpl. rewrite !app_nil_r. reflexivity.
    + intros H1 H2. unfold run. rewrite tryMerge_run.
      rewrite (skip_not_clean (withMergeStateStatus (Some status) information) status
                 H1 H2 eq_refl Hstatus).
      reflexivity.
  - unfold run. rewrite !tryMerge_run. reflexivity.
  - intros H1 H2 H3. unfold run. rewrite tryMerge_run.
    rewrite (skip_not_open (withMergeStateStatus None information)
               H1 H2 (or_introl eq_refl) H3).
    reflexivity.
Qed.

(** C7: with no review edge [merge] sends the approve-and-merge mutation,
    with a review edge it sends the merge-only mutation, in both cases with
    the commit headline and the pull request id as variables; [tryMerge]
    hands over [reviewEdges[0]]: once the pull request has passed the checks,
    the run on an empty list is the retry run with no review edge, which sends
    the approve-and-merge mutation at least once and nothing else, and the run
    on a non-empty list is the retry run with its first edge, which sends the
    merge-only mutation at least once and nothing else; the edges after the
    first change nothing in the run. *)
Theorem C7_review_edge_selects_mutation
    inputs octokit maximumRetries information t edge later
    commitHeadline pullRequestId retries count :
  let outcomeOf (rejection : option Error) : Outcome unit :=
    match rejection with
    | None => Returned tt
    | Some e => Thrown e
    end in
  let variables := mkVariables commitHeadline pullRequestId in
  let approveAndMerge := approveAndMergePullRequestMutation configuredMergeMethod in
  let mergeOnly := mergePullRequestMutation configuredMergeMethod in
  let payload := mkVariables (commitMessageHeadline information)
                             (infoPullRequestId information) in
  let run edges :=
    tryMerge inputs octokit maximumRetries (withReviewEdges edges information) t in
  let t0 := t ++ [GetInput "GITHUB_LOGIN"; GetInput "ENABLED_FOR_MANUAL_CHANGES"] in
  let handedOver reviewEdge :=
    mkDetails (commitMessageHeadline information) (infoPullRequestId information)
              reviewEdge maximumRetries 1 in
  merge octokit (mkDetails commitHeadline pullRequestId None retries count) t
  = (outcomeOf (mutationError octokit (t ++ [ParseInputMergeMethod])
                              approveAndMerge variables),
     t ++ [ParseInputMergeMethod; Mutate approveAndMerge variables]) /\
  merge octokit (mkDetails commitHeadline pullRequestId (Some edge) retries count) t
  = (outcomeOf (mutationError octokit (t ++ [ParseInputMergeMethod])
                              mergeOnly variables),
     t ++ [ParseInputMergeMethod; Mutate mergeOnly variables]) /\
  (exists n, mutationsOf (snd (run [])) = mutationsOf t ++ repeat (approveAndMerge, payload) n) /\
  (exists n, mutationsOf (snd (run (edge :: later)))
             = mutationsOf t ++ repeat (mergeOnly, payload) n) /\
  run (edge :: later) = run [edge] /\
  (forall t1,
     skipReason information = None ->
     (String.eqb (ENABLED_FOR_MANUAL_CHANGES inputs) "true" = true /\ t1 = t0) \/
     (String.eqb (ENABLED_FOR_MANUAL_CHANGES inputs) "true" = false /\
      getIsModified octokit (commitsQueryOf information) t0 = (Returned false, t1)) ->
     run [] = mergeWithRetry octokit (handedOver None) t1 /\
     run (edge :: later) = mergeWithRetry octokit (handedOver (Some edge)) t1 /\
     (exists n rest,
        run [] = (Returned tt,
                  t1 ++ [ParseInputMergeMethod; Mutate approveAndMerge payload] ++ rest) /\
        mutationsOf (snd (run []))
        = mutationsOf t ++ repeat (approveAndMerge, payload) (S n)) /\
     (exists n rest,
        run (edge :: later)
        = (Returned tt,
           t1 ++ [ParseInputMergeMethod; Mutate mergeOnly payload] ++ rest) /\
        mutationsOf (snd (run (edge :: later)))
        = mutationsOf t ++ repeat (mergeOnly, payload) (S n))).
Proof.
  intros outcomeOf variables approveAndMerge mergeOnly payload run t0 handedOver.
  split; [| split; [| split; [| split; [| split]]]].
  - rewrite merge_run. cbv zeta. unfold chosenMutation, chosenVariables. simpl.
    fold approveAndMerge variables.
    destruct (mutationError octokit _ approveAndMerge variables); reflexivity.
  - rewrite merge_run. cbv zeta. unfold chosenMutation, chosenVariables. simpl.
    fold mergeOnly variables.
    destruct (mutationError octokit _ mergeOnly variables); reflexivity.
  - apply (tryMerge_mutations inputs octokit maximumRetries
             (withReviewEdges [] information) t).
  - apply (tryMerge_mutations inputs octokit maximumRetries
             (withReviewEdges (edge :: later) information) t).
  - unfold run. rewrite !tryMerge_run. reflexivity.
  - intros t1 Hreason Hpassed.
    assert (Hhand : forall edges,
               run edges = mergeWithRetry octokit (handedOver (nth_error edges 0)) t1).
    { intros edges. unfold run. rewrite tryMerge_run. cbv zeta. fold t0.
      change (skipReason (withReviewEdges edges information))
        with (skipReason information).
      change (commitsQueryOf (withReviewEdges edges information))
        with (commitsQueryOf information).
      rewrite Hreason.
      destruct Hpassed as [[-> ->] | [-> ->]]; reflexivity. }
    assert (Ht1 : mutationsOf t1 = mutationsOf t).
    { destruct Hpassed as [[_ ->] | [_ Hdetector]].
      - unfold t0. rewrite mutationsOf_app. simpl. apply app_nil_r.
      - pose proof (getIsModified_mutations octokit (commitsQueryOf information) t0) as Hg.
        rewrite Hdetector in Hg. cbn [snd] in Hg. rewrite Hg.
        unfold t0. rewrite mutationsOf_app. simpl. apply app_nil_r. }
    assert (Hsent : forall details,
               exists n rest,
                 mergeWithRetry octokit details t1
                 = (Returned tt,
                    t1 ++ [ParseInputMergeMethod;
                           Mutate (chosenMutation details) (chosenVariables details)]
                       ++ rest) /\
                 mutationsOf (snd (mergeWithRetry octokit details t1))
                 = mutationsOf t
                   ++ repeat (chosenMutation details, chosenVariables details) (S n)).
    { intros details.
      destruct (mergeWithRetry_run octokit _ details t1 eq_refl)
        as (added & n & Hrun & Hatt & _).
      exists n.
      assert (Hfirst : exists rest,
                 added = [ParseInputMergeMethod;
                          Mutate (chosenMutation details) (chosenVariables details)]
                         ++ rest).
      { rewrite mergeWithRetry_step, merge_run in Hrun. cbv zeta in Hrun.
        destruct (mutationError octokit _ _ _) as [error |].
        - destruct (shouldRetry error _ _ _) as [[[|] | e] t2] eqn:Hretry.
          + apply shouldRetry_true in Hretry. destruct Hretry as (_ & _ & ->).
            cbv zeta in Hrun.
            match type of Hrun with
            | mergeWithRetry _ _ ?t3 = _ =>
                destruct (mergeWithRetry_run octokit _ (nextAttempt details) t3 eq_refl)
                  as (more & _ & Hmore & _)
            end.
            rewrite Hmore in Hrun. inversion Hrun as [Heq].
            rewrite <- !app_assoc in Heq. apply app_inv_head in Heq.
            eexists. symmetry. exact Heq.
          + apply shouldRetry_false in Hretry. destruct Hretry as (logged & -> & _).
            inversion Hrun as [Heq].
            rewrite <- !app_assoc in Heq. apply app_inv_head in Heq.
            eexists. symmetry. exact Heq.
          + exfalso. eapply shouldRetry_returns; eassumption.
        - inversion Hrun as [Heq]. apply app_inv_head in Heq.
          exists []. symmetry. exact Heq. }
      destruct Hfirst as (rest & Hrest). exists rest. split.
      - rewrite Hrun, Hrest. reflexivity.
      - rewrite Hrun. cbn [snd].
        rewrite mutationsOf_app, <- (mutationsOf_attemptsOf added), Hatt,
          mutationsOf_attempts, Ht1.
        reflexivity. }
    split; [exact (Hhand []) |].
    split; [exact (Hhand (edge :: later)) |].
    split.
    + rewrite (Hhand []). exact (Hsent (handedOver None)).
    + rewrite (Hhand (edge :: later)). exact (Hsent (handedOver (Some edge))).
Qed.

(** C9 (as amended): the merge method is resolved at the start of every
    attempt, immediately before that attempt's mutation, not once before the
    first; the resolution and the mutation with its variables are the same at
    every attempt of one [mergeWithRetry] run, there is at least one attempt,
    and the run returns. *)
Theorem C9_every_attempt_resolves_and_sends_the_same octokit details t :
  exists added n,
    mergeWithRetry octokit details t = (Returned tt, t ++ added) /\
    attemptsOf added
    = List.concat
        (repeat [ParseInputMergeMethod;
                 Mutate match reviewEdge details with
                        | None => approveAndMergePullRequestMutation configuredMergeMethod
                        | Some _ => mergePullRequestMutation configuredMergeMethod
                        end
                        (mkVariables (commitHeadline details) (pullRequestId details))]
                (S n)).
Proof.
  destruct (mergeWithRetry_run octokit _ details t eq_refl)
    as (added & n & Hrun & Hatt & _).
  exists added, n. split; assumption.
Qed.

(** C10: the value of [GITHUB_LOGIN] changes nothing but the text of one log
    line: for two values of it, [tryMerge] ends the same way with the same
    configuration reads, queries, mutations and delays, and the two traces
    are equal unless both end with the skip message that names the value. *)
Theorem C10_login_input_only_in_log_text
    login1 login2 manualChanges octokit maximumRetries information t :
  let run login :=
    tryMerge (mkInputs login manualChanges) octokit maximumRetries information t in
  let notMadeBy login :=
    Log Info ("Pull request changes were not made by " ++ login ++ ".")%string in
  fst (run login1) = fst (run login2) /\
  withoutLogs (snd (run login1)) = withoutLogs (snd (run login2)) /\
  (snd (run login1) = snd (run login2) \/
   exists t', snd (run login1) = t' ++ [notMadeBy login1] /\
              snd (run login2) = t' ++ [notMadeBy login2]).
Proof.
  intros run notMadeBy. unfold run. rewrite !tryMerge_run. cbv zeta.
  cbn [GITHUB_LOGIN ENABLED_FOR_MANUAL_CHANGES].
  destruct (skipReason information) as [text |]; [repeat split; left; reflexivity |].
  destruct (String.eqb manualChanges "true"); [repeat split; left; reflexivity |].
  destruct (getIsModified octokit (commitsQueryOf information) _) as [[[|] | e] t1].
  - cbn [fst snd]. repeat split.
    + rewrite !withoutLogs_app. reflexivity.
    + right. exists t1. split; reflexivity.
  - repeat split. left. reflexivity.
  - repeat split. left. reflexivity.
Qed.

(** ** More on the entry point *)

(** X15: the review that is handed over is never inspected: two runs on
    review lists that are both non-empty are the same run, whatever the
    states of the reviews. *)
Theorem X15_review_state_is_never_inspected
    inputs octokit maximumRetries information t edge1 later1 edge2 later2 :
  tryMerge inputs octokit maximumRetries (withReviewEdges (edge1 :: later1) information) t
  = tryMerge inputs octokit maximumRetries (withReviewEdges (edge2 :: later2) information) t.
Proof.
  rewrite !tryMerge_run. cbv zeta.
  change (skipReason (withReviewEdges (edge1 :: later1) information))
    with (skipReason information).
  change (skipReason (withReviewEdges (edge2 :: later2) information))
    with (skipReason information).
  change (commitsQueryOf (withReviewEdges (edge1 :: later1) information))
    with (commitsQueryOf information).
  change (commitsQueryOf (withReviewEdges (edge2 :: later2) information))
    with (commitsQueryOf information).
  change (detailsOf maximumRetries (withReviewEdges (edge1 :: later1) information))
    with (withReviewEdge (Some edge1) (detailsOf maximumRetries information)).
  change (detailsOf maximumRetries (withReviewEdges (edge2 :: later2) information))
    with (withReviewEdge (Some edge2) (detailsOf maximumRetries information)).
  destruct (skipReason information); [reflexivity |].
  destruct (String.eqb (ENABLED_FOR_MANUAL_CHANGES inputs) "true").
  - apply (mergeWithRetry_review_edge octokit edge1 edge2 _ _ _ eq_refl).
  - destruct (getIsModified octokit (commitsQueryOf information) _) as [[[|] | e] t1];
      try reflexivity.
    apply (mergeWithRetry_review_edge octokit edge1 edge2 _ _ _ eq_refl).
Qed.

(** X16: when [ENABLED_FOR_MANUAL_CHANGES] is exactly ["true"], the
    modification detector is not run: [tryMerge] issues no commit query,
    whatever the pull request. *)
Theorem X16_manual_changes_enabled_skips_detector
    inputs octokit maximumRetries information t :
  ENABLED_FOR_MANUAL_CHANGES inputs = "true" ->
  queriesOf (snd (tryMerge inputs octokit maximumRetries information t)) = queriesOf t.
Proof.
  intros Hmanual. rewrite tryMerge_run, Hmanual. cbv zeta.
  set (t0 := t ++ [GetInput "GITHUB_LOGIN"; GetInput "ENABLED_FOR_MANUAL_CHANGES"]).
  assert (H0 : queriesOf t0 = queriesOf t).
  { unfold t0. rewrite queriesOf_app. simpl. apply app_nil_r. }
  destruct (skipReason information) as [text |].
  - cbn [snd]. rewrite queriesOf_app, H0. simpl. apply app_nil_r.
  - change (String.eqb "true" "true") with true. cbv iota.
    destruct (mergeWithRetry_schedule octokit _ (detailsOf maximumRetries information)
                t0 eq_refl) as (k & added & _ & Hrun & _ & _ & Hev).
    rewrite Hrun. cbn [snd].
    rewrite queriesOf_app, (mergeEvents_no_query added Hev), H0. apply app_nil_r.
Qed.

(** X17: an eligible pull request is always given a merge attempt: when the
    five preconditions on the snapshot hold and either manual changes are
    enabled or the detector returns [false], [tryMerge] returns normally after
    sending at least one mutation, approve-and-merge for an empty review list
    and merge-only otherwise, with the commit headline and the pull request id
    of the snapshot. *)
Theorem X17_eligible_pull_request_is_attempted
    inputs octokit maximumRetries information t :
  let t0 := t ++ [GetInput "GITHUB_LOGIN"; GetInput "ENABLED_FOR_MANUAL_CHANGES"] in
  let run := tryMerge inputs octokit maximumRetries information t in
  mergeableState information = "MERGEABLE" ->
  merged information = false ->
  mergeStateStatus information = None \/ mergeStateStatus information = Some "CLEAN" ->
  pullRequestState information = "OPEN" ->
  checkPullRequestTitleForMergePreset (pullRequestTitle information) = true ->
  ENABLED_FOR_MANUAL_CHANGES inputs = "true"
  \/ fst (getIsModified octokit (commitsQueryOf information) t0) = Returned false ->
  fst run = Returned tt /\
  exists n,
    mutationsOf (snd run)
    = mutationsOf t
      ++ repeat (match reviewEdges information with
                 | [] => approveAndMergePullRequestMutation configuredMergeMethod
                 | _ :: _ => mergePullRequestMutation configuredMergeMethod
                 end,
                 mkVariables (commitMessageHeadline information)
                             (infoPullRequestId information)) (S n).
Proof.
  intros t0 run H1 H2 H3 H4 H5 H6. unfold run.
  rewrite tryMerge_run, (skip_none information H1 H2 H3 H4 H5). cbv zeta. fold t0.
  assert (H0 : mutationsOf t0 = mutationsOf t).
  { unfold t0. rewrite mutationsOf_app. simpl. apply app_nil_r. }
  assert (Hchosen : chosenMutation (detailsOf maximumRetries information)
                    = match reviewEdges information with
                      | [] => approveAndMergePullRequestMutation configuredMergeMethod
                      | _ :: _ => mergePullRequestMutation configuredMergeMethod
                      end).
  { unfold chosenMutation, detailsOf. simpl. destruct (reviewEdges information); reflexivity. }
  assert (Hattempt : forall t1, mutationsOf t1 = mutationsOf t ->
            fst (mergeWithRetry octokit (detailsOf maximumRetries information) t1)
            = Returned tt /\
            exists n,
              mutationsOf (snd (mergeWithRetry octokit
                                  (detailsOf maximumRetries information) t1))
              = mutationsOf t
                ++ repeat (match reviewEdges information with
                           | [] => approveAndMergePullRequestMutation configuredMergeMethod
                           | _ :: _ => mergePullRequestMutation configuredMergeMethod
                           end,
                           mkVariables (commitMessageHeadline information)
                                       (infoPullRequestId information)) (S n)).
  { intros t1 Ht1.
    destruct (mergeWithRetry_mutations octokit (detailsOf maximumRetries information) t1)
      as (n & Hret & Hmut).
    split; [exact Hret |]. exists n. rewrite Hmut, Ht1, Hchosen. reflexivity. }
  destruct (String.eqb_spec (ENABLED_FOR_MANUAL_CHANGES inputs) "true") as [Hm | Hm].
  - apply Hattempt, H0.
  - destruct H6 as [H6 | H6]; [contradiction |].
    pose proof (getIsModified_mutations octokit (commitsQueryOf information) t0) as Hg.
    destruct (getIsModified octokit (commitsQueryOf information) t0) as [[[|] | e] t1];
      simpl in H6; try discriminate.
    apply Hattempt. cbn [snd] in Hg. rewrite Hg. exact H0.
Qed.

(** X18: whatever the executor answers and whatever the pull request, one
    call of [tryMerge] sends at most [maximumRetries + 1] mutations, and at
    most one when [maximumRetries] is zero or negative. *)
Theorem X18_mutations_bounded_by_maximumRetries
    inputs octokit maximumRetries information t :
  (List.length (mutationsOf (snd (tryMerge inputs octokit maximumRetries information t)))
   <= List.length (mutationsOf t) + S (Z.to_nat maximumRetries))%nat.
Proof.
  rewrite tryMerge_run. cbv zeta.
  set (t0 := t ++ [GetInput "GITHUB_LOGIN"; GetInput "ENABLED_FOR_MANUAL_CHANGES"]).
  assert (H0 : mutationsOf t0 = mutationsOf t).
  { unfold t0. rewrite mutationsOf_app. simpl. apply app_nil_r. }
  assert (Hbound : forall t1, mutationsOf t1 = mutationsOf t ->
            (List.length (mutationsOf (snd (mergeWithRetry octokit
                                              (detailsOf maximumRetries information) t1)))
             <= List.length (mutationsOf t) + S (Z.to_nat maximumRetries))%nat).
  { intros t1 Ht1.
    destruct (mergeWithRetry_schedule octokit _ (detailsOf maximumRetries information)
                t1 eq_refl) as (k & added & Hk & Hrun & Hmut & _ & _).
    rewrite Hrun. cbn [snd]. rewrite mutationsOf_app, length_app, Hmut, Ht1.
    simpl in Hk. replace (maximumRetries + 1 - 1) with maximumRetries in Hk by lia. lia. }
  destruct (skipReason information) as [text |].
  - cbn [snd]. rewrite mutationsOf_app, H0. simpl. rewrite app_nil_r. lia.
  - destruct (String.eqb (ENABLED_FOR_MANUAL_CHANGES inputs) "true").
    + apply Hbound, H0.
    + pose proof (getIsModified_mutations octokit (commitsQueryOf information) t0) as Hg.
      destruct (getIsModified octokit (commitsQueryOf information) t0) as [[[|] | e] t1];
        cbn [snd] in Hg.
      * cbn [snd]. rewrite mutationsOf_app, Hg, H0. simpl. rewrite app_nil_r. lia.
      * apply Hbound. rewrite Hg. exact H0.
      * cbn [snd]. rewrite Hg, H0. lia.
Qed.

End Merge.

(** ** Concrete runs *)

(** C1: a pull request whose only commit carries no signature: the detector
    returns [false] where the specification requires [true]; the first commit is
    taken off the iterator before the loop and its signature is never read. *)
Theorem C1_unsigned_first_commit_not_detected :
  getIsModified (serving (LastPage [unsignedBy "dependabot"] None)) exampleQuery []
  = (Returned false, [Query exampleQuery None]).
Proof. reflexivity. Qed.

(** A validly signed second commit without an author object: the detector
    raises instead of returning [true]. *)
Lemma C3_counterexample_absent_author_raises :
  getIsModified (serving (LastPage [signedBy "dependabot"; signedByNobody] None))
                exampleQuery []
  = (Thrown (mkError "TypeError" "Cannot read properties of null (reading 'user')"),
     [Query exampleQuery None]).
Proof. reflexivity. Qed.

Lemma C3_witness :
  getIsModified (serving (LastPage [signedBy "dependabot"; signedBy "dependabot";
                                    signedByNobody] None)) exampleQuery []
  = (Thrown (nullPropertyError "user"), [Query exampleQuery None]).
Proof.
  apply (C3_absent_author_raises_when_signed
           (serving (LastPage [signedBy "dependabot"; signedBy "dependabot";
                               signedByNobody] None))
           exampleQuery [] (signedBy "dependabot") [signedBy "dependabot"]
           signedByNobody []).
  - reflexivity.
  - reflexivity.
  - left. reflexivity.
Defined.

(** Three pages; the second commit, by another author, is on the second page:
    two queries are issued and the third page is never requested. *)
Lemma C8_witness :
  let history :=
    NextPage [signedBy "dependabot"] (Some "cursor-1")
      (NextPage [signedBy "mallory"; signedBy "dependabot"] (Some "cursor-2")
         (LastPage [signedBy "dependabot"] None)) in
  getIsModified (serving history) exampleQuery []
  = (Returned true, [Query exampleQuery None; Query exampleQuery (Some "cursor-1")]) /\
  exists unrequested,
    allQueries exampleQuery None history
    = [Query exampleQuery None; Query exampleQuery (Some "cursor-1")] ++ unrequested.
Proof.
  intros history.
  apply (C8_second_author_differs_short_circuit
           (serving history) exampleQuery [] (signedBy "dependabot") (signedBy "mallory")
           [signedBy "dependabot"; signedBy "dependabot"] "dependabot" "mallory").
  - reflexivity.
  - reflexivity.
  - reflexivity.
  - reflexivity.
  - reflexivity.
  - discriminate.
Defined.


Lemma C4_witness :
  (exists e,
     mergeWithRetry 2 1000 SQUASH rejecting (mkDetails "headline" "id" None 2 1) []
     = (Returned tt,
        [ParseInputMergeMethod;
         Mutate (approveAndMergePullRequestMutation SQUASH) (mkVariables "headline" "id");
         Log Info "Retrying in 1000..."; Delay 1000;
         ParseInputMergeMethod;
         Mutate (approveAndMergePullRequestMutation SQUASH) (mkVariables "headline" "id");
         Log Info "Retrying in 4000..."; Delay 4000;
         ParseInputMergeMethod;
         Mutate (approveAndMergePullRequestMutation SQUASH) (mkVariables "headline" "id");
         Log Info "Unable to merge after 3 attempts. Retries exhausted.";
         Log Info ("An error ocurred while merging the Pull Request. This is usually "
                   ++ "caused by the base branch being out of sync with the target "
                   ++ "branch. In this case, the base branch must be rebased. Some "
                   ++ "tools, such as Dependabot, do that automatically.")%string;
         Log Debug ("Original error: " ++ errorToString e ++ ".")%string])) /\
  (let trace :=
     snd (mergeWithRetry 2 1000 SQUASH rejecting (mkDetails "headline" "id" None 5 1) []) in
   List.length (mutationsOf trace) = 6%nat /\
   delaysOf trace = [1000; 4000; 9000; 16000; 25000]).
Proof.
  apply (C4_retries_then_gives_up 2 1000 SQUASH rejecting "headline" "id" None 5).
  - intros t mutation variables. exists baseBranchModified. split; reflexivity.
  - lia.
Defined.

(** A pull request that is not open: one log line, no query, no mutation. *)
Lemma C5_witness :
  let information := mkInformation "headline" "MERGEABLE" (Some "CLEAN") false "id" 7
                                   "CLOSED" "title" [] "merge-me-action" "ridedott" in
  mutationsOf (snd (tryMerge 2 1000 SQUASH (fun _ => true) exampleInputs
                             (serving (LastPage [signedBy "dependabot[bot]"] None))
                             3 information []))
  = [].
Proof.
  intros information.
  refine (proj1 (C5_failed_precondition_sends_no_mutation
                   2 1000 SQUASH (fun _ => true) exampleInputs
                   (serving (LastPage [signedBy "dependabot[bot]"] None))
                   3 information [] _)).
  right. right. right. left. discriminate.
Defined.

(** One retry: the merge method is resolved a second time, after the first
    mutation was sent. *)
Lemma C9_counterexample_resolved_at_each_attempt :
  mergeWithRetry 2 1000 SQUASH rejectingOnce (mkDetails "headline" "id" None 3 1) []
  = (Returned tt,
     [ParseInputMergeMethod;
      Mutate (approveAndMergePullRequestMutation SQUASH) (mkVariables "headline" "id");
      Log Info "Retrying in 1000..."; Delay 1000;
      ParseInputMergeMethod;
      Mutate (approveAndMergePullRequestMutation SQUASH) (mkVariables "headline" "id")]).
Proof. reflexivity. Qed.

(** Five commits by one signed author on pages of two, two and one: the
    detector returns [false] after exactly three queries, each at the cursor
    of the page before. *)
Example getIsModified_full_traversal :
  getIsModified
    (serving (NextPage [signedBy "dependabot"; signedBy "dependabot"] (Some "cursor-1")
                (NextPage [signedBy "dependabot"; signedBy "dependabot"] (Some "cursor-2")
                   (LastPage [signedBy "dependabot"] None))))
    exampleQuery []
  = (Returned false,
     [Query exampleQuery None; Query exampleQuery (Some "cursor-1");
      Query exampleQuery (Some "cursor-2")]).
Proof. reflexivity. Qed.

(** An eligible pull request without merge-state-status and without reviews:
    the commits are checked, then the approve-and-merge mutation is sent once. *)
Example tryMerge_eligible_run :
  tryMerge 2 1000 SQUASH (fun _ => true) exampleInputs
           (serving (LastPage [signedBy "dependabot"; signedBy "dependabot"] None))
           3 exampleInformation []
  = (Returned tt,
     [GetInput "GITHUB_LOGIN"; GetInput "ENABLED_FOR_MANUAL_CHANGES";
      Query exampleQuery None;
      ParseInputMergeMethod;
      Mutate (approveAndMergePullRequestMutation SQUASH)
             (mkVariables "Bump typescript from 4.1.2 to 4.1.3"
                          "MDExOlB1bGxSZXF1ZXN0MzE3MDI5MjU4")]).
Proof. reflexivity. Qed.

(** The same pull request with a commit by someone else: skipped, and the
    configured login appears in the log line only. *)
Example tryMerge_modified_run :
  tryMerge 2 1000 SQUASH (fun _ => true) exampleInputs
           (serving (LastPage [signedBy "dependabot"; signedBy "mallory"] None))
           3 exampleInformation []
  = (Returned tt,
     [GetInput "GITHUB_LOGIN"; GetInput "ENABLED_FOR_MANUAL_CHANGES";
      Query exampleQuery None;
      Log Info "Pull request changes were not made by dependabot[bot]."]).
Proof. reflexivity. Qed.

(** ** Concrete runs of the further properties *)

Lemma X1_witness :
  getIsModified (serving (NextPage [] (Some "cursor-1") (LastPage [] None))) exampleQuery []
  = (Returned true,
     [Query exampleQuery None; Query exampleQuery (Some "cursor-1");
      Log Warning "Could not find PR commits, aborting."]).
Proof.
  apply (X1_no_commits_is_modified
           (serving (NextPage [] (Some "cursor-1") (LastPage [] None))) exampleQuery []).
  - reflexivity.
  - reflexivity.
Defined.

Lemma X2_witness :
  getIsModified
    (serving (NextPage [signedBy "dependabot"; signedBy "dependabot"] (Some "cursor-1")
                (LastPage [signedBy "dependabot"] None)))
    exampleQuery []
  = (Returned false, [Query exampleQuery None; Query exampleQuery (Some "cursor-1")]).
Proof.
  apply (X2_all_later_commits_pass_is_unmodified
           (serving (NextPage [signedBy "dependabot"; signedBy "dependabot"]
                       (Some "cursor-1") (LastPage [signedBy "dependabot"] None)))
           exampleQuery [] (signedBy "dependabot")
           [signedBy "dependabot"; signedBy "dependabot"]).
  - reflexivity.
  - reflexivity.
  - reflexivity.
Defined.

Lemma X3_witness :
  let octokit := serving (LastPage [unsignedBy "dependabot"; signedBy "dependabot"] None) in
  exists first rest,
    historyCommits (commits octokit exampleQuery) = first :: rest /\
    Forall (fun node =>
              signature (commit node) = Some (mkSignature true) /\
              exists l, author (commit node) = Some (mkAuthor (Some (mkUser l))) /\
                        author (commit first) = Some (mkAuthor (Some (mkUser l)))) rest /\
    historyFailure (commits octokit exampleQuery) = None /\
    [Query exampleQuery None] = [] ++ allQueries exampleQuery None (commits octokit exampleQuery).
Proof.
  intros octokit.
  apply (X3_unmodified_only_if_all_later_commits_pass octokit exampleQuery []
           [Query exampleQuery None]).
  reflexivity.
Defined.

Lemma X4_witness :
  getIsModified
    (serving (LastPage [signedBy "dependabot"; signedBy "dependabot";
                        mkNode (mkCommit (Some (mkAuthor (Some (mkUser "dependabot"))))
                                         (Some (mkSignature false)));
                        signedBy "dependabot"] None))
    exampleQuery []
  = (Returned true,
     [Query exampleQuery None;
      Log Warning "Commit signature not present or invalid, regarding PR as modified."]).
Proof.
  apply (X4_unsigned_later_commit_is_modified
           (serving (LastPage [signedBy "dependabot"; signedBy "dependabot";
                               mkNode (mkCommit (Some (mkAuthor (Some (mkUser "dependabot"))))
                                                (Some (mkSignature false)));
                               signedBy "dependabot"] None))
           exampleQuery [] (signedBy "dependabot") [signedBy "dependabot"]
           (mkNode (mkCommit (Some (mkAuthor (Some (mkUser "dependabot"))))
                             (Some (mkSignature false))))
           [signedBy "dependabot"]).
  - reflexivity.
  - reflexivity.
  - right. reflexivity.
Defined.

Lemma X5_witness :
  getIsModified
    (serving (NextPage [signedBy "dependabot"; signedBy "dependabot"] (Some "cursor-1")
                (NextPage [signedBy "mallory"] (Some "cursor-2")
                   (LastPage [signedBy "dependabot"] None))))
    exampleQuery []
  = (Returned true, [Query exampleQuery None; Query exampleQuery (Some "cursor-1")]).
Proof.
  apply (X5_other_author_later_commit_is_modified
           (serving (NextPage [signedBy "dependabot"; signedBy "dependabot"]
                       (Some "cursor-1")
                       (NextPage [signedBy "mallory"] (Some "cursor-2")
                          (LastPage [signedBy "dependabot"] None))))
           exampleQuery [] (signedBy "dependabot") [signedBy "dependabot"]
           (signedBy "mallory") [signedBy "dependabot"] "dependabot" "mallory").
  - reflexivity.
  - reflexivity.
  - reflexivity.
  - reflexivity.
  - reflexivity.
  - discriminate.
Defined.

Lemma X6_witness :
  getIsModified
    (serving (NextPage [signedBy "dependabot"; signedBy "dependabot"] (Some "cursor-1")
                (FailedPage (mkError "HttpError" "Bad gateway"))))
    exampleQuery []
  = (Thrown (mkError "HttpError" "Bad gateway"),
     [Query exampleQuery None; Query exampleQuery (Some "cursor-1")]).
Proof.
  apply (X6_traversal_error_propagates
           (serving (NextPage [signedBy "dependabot"; signedBy "dependabot"]
                       (Some "cursor-1") (FailedPage (mkError "HttpError" "Bad gateway"))))
           exampleQuery [] (mkError "HttpError" "Bad gateway")).
  - reflexivity.
  - reflexivity.
Defined.

Lemma X7_witness :
  getIsModified (serving (LastPage [signedByNobody; signedBy "dependabot"] None))
                exampleQuery []
  = (Thrown (nullPropertyError "user"), [Query exampleQuery None]).
Proof.
  apply (X7_first_commit_without_author_raises
           (serving (LastPage [signedByNobody; signedBy "dependabot"] None))
           exampleQuery [] signedByNobody (signedBy "dependabot") [] "dependabot").
  - reflexivity.
  - reflexivity.
  - reflexivity.
  - left. reflexivity.
Defined.

Lemma X11_witness :
  mergeWithRetry 2 1000 SQUASH rejectingOnce (mkDetails "headline" "id" None 3 1) []
  = (Returned tt,
     [ParseInputMergeMethod;
      Mutate (approveAndMergePullRequestMutation SQUASH) (mkVariables "headline" "id");
      Log Info "Retrying in 1000..."; Delay 1000;
      ParseInputMergeMethod;
      Mutate (approveAndMergePullRequestMutation SQUASH) (mkVariables "headline" "id")]).
Proof.
  apply (X11_retries_until_accepted 2 1000 SQUASH rejectingOnce 1%nat
           (mkDetails "headline" "id" None 3 1) []).
  - simpl. lia.
  - intros i Hi. assert (i = 0%nat) by lia. subst i.
    exists baseBranchModified. split; reflexivity.
  - reflexivity.
Defined.

Lemma X12_witness :
  mergeWithRetry 2 1000 SQUASH refusing (mkDetails "headline" "id" None 3 1) []
  = (Returned tt,
     [ParseInputMergeMethod;
      Mutate (approveAndMergePullRequestMutation SQUASH) (mkVariables "headline" "id");
      Log Info ("An error ocurred while merging the Pull Request. This is usually "
                ++ "caused by the base branch being out of sync with the target "
                ++ "branch. In this case, the base branch must be rebased. Some "
                ++ "tools, such as Dependabot, do that automatically.")%string;
      Log Debug "Original error: GraphqlError: Pull Request is not mergeable."]).
Proof.
  apply (X12_other_error_is_not_retried 2 1000 SQUASH refusing
           (mkDetails "headline" "id" None 3 1) []
           (mkError "GraphqlError" "Pull Request is not mergeable")).
  - reflexivity.
  - reflexivity.
Defined.

Lemma X14_witness :
  exists added,
    snd (mergeWithRetry 2 1000 SQUASH rejecting (mkDetails "headline" "id" None 3 1) [])
    = [] ++ added /\
    Sorted Z.le (delaysOf added).
Proof.
  apply (X14_waits_never_shrink 2 1000 SQUASH rejecting
           (mkDetails "headline" "id" None 3 1) []).
  - lia.
  - lia.
  - simpl. lia.
Defined.

Lemma X16_witness :
  queriesOf (snd (tryMerge 2 1000 SQUASH (fun _ => true) (mkInputs "dependabot[bot]" "true")
                           (serving (LastPage [signedBy "dependabot"; signedBy "mallory"] None))
                           3 exampleInformation []))
  = [].
Proof.
  apply (X16_manual_changes_enabled_skips_detector
           2 1000 SQUASH (fun _ => true) (mkInputs "dependabot[bot]" "true")
           (serving (LastPage [signedBy "dependabot"; signedBy "mallory"] None))
           3 exampleInformation []).
  reflexivity.
Defined.

Lemma X17_witness :
  let run := tryMerge 2 1000 SQUASH (fun _ => true) exampleInputs
                      (serving (LastPage [signedBy "dependabot"; signedBy "dependabot"] None))
                      3 exampleInformation [] in
  fst run = Returned tt /\
  exists n,
    mutationsOf (snd run)
    = [] ++ repeat (approveAndMergePullRequestMutation SQUASH,
                    mkVariables "Bump typescript from 4.1.2 to 4.1.3"
                                "MDExOlB1bGxSZXF1ZXN0MzE3MDI5MjU4") (S n).
Proof.
  intros run.
  apply (X17_eligible_pull_request_is_attempted
           2 1000 SQUASH (fun _ => true) exampleInputs
           (serving (LastPage [signedBy "dependabot"; signedBy "dependabot"] None))
           3 exampleInformation []).
  - reflexivity.
  - reflexivity.
  - left. reflexivity.
  - reflexivity.
  - reflexivity.
  - right. reflexivity.
Defined.

(** ** Concrete runs of the entry point's error and hand-off paths *)


(** An eligible pull request with two reviews, the first of which requests
    changes: the merge-only mutation is sent, once. *)
Lemma C7_witness :
  let octokit := serving (LastPage [signedBy "dependabot"; signedBy "dependabot"] None) in
  let edge := mkReviewEdge "CHANGES_REQUESTED" in
  let later := [mkReviewEdge "APPROVED"] in
  let payload := mkVariables "Bump typescript from 4.1.2 to 4.1.3"
                             "MDExOlB1bGxSZXF1ZXN0MzE3MDI5MjU4" in
  let t1 := [GetInput "GITHUB_LOGIN"; GetInput "ENABLED_FOR_MANUAL_CHANGES";
             Query exampleQuery None] in
  let run edges :=
    tryMerge 2 1000 SQUASH (fun _ => true) exampleInputs octokit 3
             (withReviewEdges edges exampleInformation) [] in
  exists n rest,
    run (edge :: later)
    = (Returned tt,
       t1 ++ [ParseInputMergeMethod; Mutate (mergePullRequestMutation SQUASH) payload]
          ++ rest) /\
    mutationsOf (snd (run (edge :: later)))
    = [] ++ repeat (mergePullRequestMutation SQUASH, payload) (S n).
Proof.
  intros octokit edge later payload t1 run.
  refine (proj2 (proj2 (proj2
            (proj2 (proj2 (proj2 (proj2 (proj2
               (C7_review_edge_selects_mutation
                  2 1000 SQUASH (fun _ => true) exampleInputs octokit 3
                  exampleInformation [] edge later "headline" "id" 3 1)))))
               t1 _ _)))).
  - reflexivity.
  - right. split; reflexivity.
Defined.
